(** * Synology SRM integration: WiFi configuration model and HTTP transport

    A shallow embedding of
    - [synology_api/wifi_utils.py]  (class [WiFiConfigManager]),
    - [synology_api/http.py]        (class [Http] and its exceptions),
    - [synology_api/api/wifi.py]    ([ApiWifi.set_network_setting]),
    together with the properties of the specification that concern them.

    Python values are the values produced by the JSON decoder.  Numbers are
    integers: the vendor API uses integral ids and error codes. *)

From Stdlib Require Import ZArith String List.
From stdpp Require Import base option list strings gmap pretty.

Local Open Scope string_scope.
Local Open Scope Z_scope.

(** ** Python values *)

#[local] Unset Elimination Schemes.
Inductive value : Type :=
| VNone
| VBool (b : bool)
| VInt (n : Z)
| VStr (s : string)
| VList (l : list value)
| VDict (kvs : list (string * value)).
#[local] Set Elimination Schemes.

(** ** Exceptions and results *)

Inductive exn : Type :=
| SynologyHttpException (msg : string)
| SynologyCommonError (code : value) (msg : string)
| SynologyApiError (code : value) (msg : string)
| KeyError (key : string)
| TypeError (msg : string)
| AttributeError
| ValueError (msg : string)
| JSONDecodeError
| RequestException
| RecursionError.

Inductive pyres (A : Type) : Type :=
| Ok (a : A)
| Raise (e : exn).
Arguments Ok {A} a.
Arguments Raise {A} e.

#[global] Instance pyres_ret : MRet pyres := @Ok.
#[global] Instance pyres_bind : MBind pyres := λ A B f m,
  match m with
  | Ok a => f a
  | Raise e => Raise e
  end.
#[global] Instance pyres_fmap : FMap pyres := λ A B f m,
  match m with
  | Ok a => Ok (f a)
  | Raise e => Raise e
  end.

(** ** Built-in operations on values *)

(** A [dict] is kept as its list of items; a key is looked up from the
    front, and a decoded object carries every key once. *)
Fixpoint assoc (k : string) (kvs : list (string * value)) : option value :=
  match kvs with
  | [] => None
  | (k', v) :: rest => if String.eqb k' k then Some v else assoc k rest
  end.

(** [d[k] = v]: an existing key keeps its position, a new key goes last. *)
Fixpoint dict_set (k : string) (v : value) (kvs : list (string * value))
  : list (string * value) :=
  match kvs with
  | [] => [(k, v)]
  | (k', v') :: rest =>
      if String.eqb k' k then (k', v) :: rest else (k', v') :: dict_set k v rest
  end.

(** [bool(x)] *)
Definition truthy (x : value) : bool :=
  match x with
  | VNone => false
  | VBool b => b
  | VInt n => negb (Z.eqb n 0)
  | VStr s => negb (String.eqb s "")
  | VList l => match l with [] => false | _ => true end
  | VDict kvs => match kvs with [] => false | _ => true end
  end.

(** [x.get(key, default)]: only a dict has the method. *)
Definition py_get (x : value) (key : string) (default : value) : pyres value :=
  match x with
  | VDict kvs => Ok (match assoc key kvs with Some v => v | None => default end)
  | _ => Raise AttributeError
  end.

(** Iterating [for x in v]: a list yields its items, a dict its keys, a
    string its characters; nothing else is iterable. *)
Fixpoint chars (s : string) : list value :=
  match s with
  | EmptyString => []
  | String c rest => VStr (String c EmptyString) :: chars rest
  end.

Definition py_iter (v : value) : pyres (list value) :=
  match v with
  | VList l => Ok l
  | VDict kvs => Ok (map (λ kv, VStr (fst kv)) kvs)
  | VStr s => Ok (chars s)
  | _ => Raise (TypeError "object is not iterable")
  end.

(** [x == n] for an [int] n: [True] and [False] compare as 1 and 0. *)
Definition py_eq_int (x : value) (n : Z) : bool :=
  match x with
  | VInt m => Z.eqb m n
  | VBool b => Z.eqb (Z.b2z b) n
  | _ => false
  end.

(** [x == s] for a [str] s. *)
Definition py_eq_str (x : value) (s : string) : bool :=
  match x with
  | VStr t => String.eqb t s
  | _ => false
  end.

(** ** [wifi_utils.py]: class [WiFiConfigManager]

    The methods are functions of the contents of [self.config].  A dict
    returned by a lookup is a reference into the configuration tree; the
    model keeps its position (index of the profile, index of the radio)
    next to its contents, and an assignment through the reference rebuilds
    the tree at that position. *)

Module WiFiConfigManager.

(** The dict behind a reference. *)
Definition deref {A : Type} (r : option (A * value)) : option value :=
  match r with
  | Some (_, v) => Some v
  | None => None
  end.

(** [get_profiles] *)
Definition get_profiles (config : value) : pyres value :=
  py_get config "profiles" (VList []).

(** [for x in xs: if test(x): return x], then [return None]; the item is
    returned with its index, counted from [i]. *)
Fixpoint first_match (test : value → pyres bool) (xs : list value) (i : nat)
  : pyres (option (nat * value)) :=
  match xs with
  | [] => Ok None
  | x :: rest =>
      b ← test x;
      if (b : bool) then Ok (Some (i, x)) else first_match test rest (S i)
  end.

(** [profile.get("id") == profile_id] *)
Definition profile_has_id (profile_id : Z) (profile : value) : pyres bool :=
  id ← py_get profile "id" VNone;
  Ok (py_eq_int id profile_id).

(** [radio.get("radio_type") == radio_type] *)
Definition radio_has_type (radio_type : string) (radio : value) : pyres bool :=
  t ← py_get radio "radio_type" VNone;
  Ok (py_eq_str t radio_type).

Definition locate_profile (config : value) (profile_id : Z)
  : pyres (option (nat * value)) :=
  profiles ← get_profiles config;
  ps ← py_iter profiles;
  first_match (profile_has_id profile_id) ps 0.

(** [get_profile_by_id] *)
Definition get_profile_by_id (config : value) (profile_id : Z)
  : pyres (option value) :=
  found ← locate_profile config profile_id;
  Ok (deref found).

Definition locate_radio (config : value) (profile_id : Z) (radio_type : string)
  : pyres (option ((nat * nat) * value)) :=
  found ← locate_profile config profile_id;
  match found with
  | None => Ok None
  | Some (i, profile) =>
      if negb (truthy profile) then Ok None
      else
        radio_list ← py_get profile "radio_list" (VList []);
        rs ← py_iter radio_list;
        r ← first_match (radio_has_type radio_type) rs 0;
        Ok (match r with Some (j, radio) => Some ((i, j), radio) | None => None end)
  end.

(** [get_radio_by_type] *)
Definition get_radio_by_type (config : value) (profile_id : Z)
    (radio_type : string) : pyres (option value) :=
  found ← locate_radio config profile_id radio_type;
  Ok (deref found).

(** [is_smart_connect_enabled] *)
Definition is_smart_connect_enabled (config : value) (profile_id : Z)
  : pyres value :=
  profile ← get_profile_by_id config profile_id;
  match profile with
  | Some p => if truthy p then py_get p "enable_smart_connect" (VBool false)
              else Ok (VBool false)
  | None => Ok (VBool false)
  end.

(** [is_radio_available] *)
Definition is_radio_available (config : value) (profile_id : Z)
    (radio_type : string) : pyres value :=
  profile ← get_profile_by_id config profile_id;
  match profile with
  | None => Ok (VBool false)
  | Some p =>
      if negb (truthy p) then Ok (VBool false)
      else
        enable_smart_connect ← py_get p "enable_smart_connect" (VBool false);
        if String.eqb radio_type "SmartConnect" then Ok enable_smart_connect
        else Ok (VBool (negb (truthy enable_smart_connect)))
  end.

(** [is_radio_enabled] *)
Definition is_radio_enabled (config : value) (profile_id : Z)
    (radio_type : string) : pyres value :=
  radio ← get_radio_by_type config profile_id radio_type;
  match radio with
  | Some r => if truthy r then py_get r "enable" (VBool false)
              else Ok (VBool false)
  | None => Ok (VBool false)
  end.

(** [get_config] *)
Definition get_config (config : value) : value := config.

(** *** Assignment through a reference *)

(** [x[key] = v] *)
Definition py_setitem (x : value) (key : string) (v : value) : pyres value :=
  match x with
  | VDict kvs => Ok (VDict (dict_set key v kvs))
  | _ => Raise (TypeError "object does not support item assignment")
  end.

(** The configuration in which profile [i] has become [p']. *)
Definition write_profile (config : value) (i : nat) (p' : value) : value :=
  match config with
  | VDict kvs =>
      match assoc "profiles" kvs with
      | Some (VList ps) => VDict (dict_set "profiles" (VList (<[i:=p']> ps)) kvs)
      | _ => config
      end
  | _ => config
  end.

(** The profile in which radio [j] has become [r']. *)
Definition write_radio_list (profile : value) (j : nat) (r' : value) : value :=
  match profile with
  | VDict kvs =>
      match assoc "radio_list" kvs with
      | Some (VList rs) => VDict (dict_set "radio_list" (VList (<[j:=r']> rs)) kvs)
      | _ => profile
      end
  | _ => profile
  end.

Definition nth_profile (config : value) (i : nat) : option value :=
  match config with
  | VDict kvs =>
      match assoc "profiles" kvs with
      | Some (VList ps) => ps !! i
      | _ => None
      end
  | _ => None
  end.

(** The configuration in which radio [j] of profile [i] has become [r']. *)
Definition write_radio (config : value) (i j : nat) (r' : value) : value :=
  match nth_profile config i with
  | Some p => write_profile config i (write_radio_list p j r')
  | None => config
  end.

(** [toggle_smart_connect]: the configuration afterwards and the result. *)
Definition toggle_smart_connect (config : value) (profile_id : Z) (enable : bool)
  : value * pyres bool :=
  match locate_profile config profile_id with
  | Raise e => (config, Raise e)
  | Ok None => (config, Ok false)
  | Ok (Some (i, profile)) =>
      if negb (truthy profile) then (config, Ok false)
      else
        match py_setitem profile "enable_smart_connect" (VBool enable) with
        | Raise e => (config, Raise e)
        | Ok p' => (write_profile config i p', Ok true)
        end
  end.

(** [enable_radio]: the configuration afterwards and the result. *)
Definition enable_radio (config : value) (profile_id : Z) (radio_type : string)
    (enable : bool) : value * pyres bool :=
  match locate_radio config profile_id radio_type with
  | Raise e => (config, Raise e)
  | Ok None => (config, Ok false)
  | Ok (Some ((i, j), radio)) =>
      if negb (truthy radio) then (config, Ok false)
      else
        match py_setitem radio "enable" (VBool enable) with
        | Raise e => (config, Raise e)
        | Ok r' => (write_radio config i j r', Ok true)
        end
  end.

(** *** [get_network_summary] *)

Section Summary.

(** [str(x)], the built-in conversion that the f-strings apply. *)
Variable py_str : value → string.

Definition toggle_entry (profile_id profile_name network_type
    enable_smart_connect : value) : value :=
  VDict [ ("profile_id", profile_id);
          ("radio_type", VStr "smart_connect_toggle");
          ("ssid", VStr " SmartConnect Toggle");
          ("network_type", network_type);
          ("profile_name", profile_name);
          ("switch_type", VStr "smart_connect_toggle");
          ("enabled", enable_smart_connect);
          ("always_available", VBool true) ].

Definition radio_entry (profile_id radio_type ssid network_type profile_name
    enabled available : value) : value :=
  VDict [ ("profile_id", profile_id);
          ("radio_type", radio_type);
          ("ssid", ssid);
          ("network_type", network_type);
          ("profile_name", profile_name);
          ("switch_type", VStr "radio");
          ("enabled", enabled);
          ("available", available);
          ("always_available", VBool false) ].

(** The inner loop, appending to [networks]. *)
Fixpoint radio_loop (profile_id profile_name network_type
    enable_smart_connect : value) (rs : list value) (networks : list value)
  : pyres (list value) :=
  match rs with
  | [] => Ok networks
  | radio :: rest =>
      radio_type ← py_get radio "radio_type" VNone;
      ssid ← py_get radio "ssid" (VStr ("Unknown_" +:+ py_str radio_type));
      enabled ← py_get radio "enable" (VBool false);
      let available :=
        if py_eq_str radio_type "SmartConnect" then enable_smart_connect
        else VBool (negb (truthy enable_smart_connect)) in
      radio_loop profile_id profile_name network_type enable_smart_connect rest
        (networks ++ [radio_entry profile_id radio_type ssid network_type
                        profile_name enabled available])%list
  end.

(** The outer loop. *)
Fixpoint profile_loop (ps : list value) (networks : list value)
  : pyres (list value) :=
  match ps with
  | [] => Ok networks
  | profile :: rest =>
      profile_id ← py_get profile "id" VNone;
      profile_name ← py_get profile "name" (VStr ("Profile " +:+ py_str profile_id));
      network_type ← py_get profile "network_type" (VStr "custom");
      enable_smart_connect ← py_get profile "enable_smart_connect" (VBool false);
      let networks :=
        (networks ++ [toggle_entry profile_id profile_name network_type
                        enable_smart_connect])%list in
      radio_list ← py_get profile "radio_list" (VList []);
      rs ← py_iter radio_list;
      networks ← radio_loop profile_id profile_name network_type
                   enable_smart_connect rs networks;
      profile_loop rest networks
  end.

Definition get_network_summary (config : value) : pyres (list value) :=
  profiles ← get_profiles config;
  ps ← py_iter profiles;
  profile_loop ps [].

End Summary.

End WiFiConfigManager.

(** ** [http.py]: class [Http] *)

(** [x[key]] for a string key. *)
Definition py_getitem (x : value) (key : string) : pyres value :=
  match x with
  | VDict kvs =>
      match assoc key kvs with
      | Some v => Ok v
      | None => Raise (KeyError key)
      end
  | VList _ | VStr _ => Raise (TypeError "indices must be integers")
  | _ => Raise (TypeError "object is not subscriptable")
  end.

Fixpoint contains_str (sub s : string) : bool :=
  String.prefix sub s ||
  match s with
  | EmptyString => false
  | String _ rest => contains_str sub rest
  end.

(** [key in x] for a string key: a key of a dict, an item of a list, a
    substring of a string. *)
Definition py_contains (key : string) (x : value) : pyres bool :=
  match x with
  | VDict kvs => Ok (bool_decide (is_Some (assoc key kvs)))
  | VList l => Ok (existsb (λ y, py_eq_str y key) l)
  | VStr s => Ok (contains_str key s)
  | _ => Raise (TypeError "argument is not iterable")
  end.

(** [x is None] *)
Definition is_None (x : value) : bool :=
  match x with
  | VNone => true
  | _ => false
  end.

(** The integer behind a value that compares with an [int]. *)
Definition py_int (x : value) : pyres Z :=
  match x with
  | VInt n => Ok n
  | VBool b => Ok (Z.b2z b)
  | _ => Raise (TypeError "'<=' not supported between instances")
  end.

Module Http.

Definition COMMON_ERROR_CODES : gmap Z string :=
  list_to_map
    [ (100, "Unknown error");
      (101, "No parameter of API, method or version");
      (102, "The requested API does not exist");
      (103, "The requested method does not exist");
      (104, "The requested version does not support the functionality");
      (105, "The logged in session does not have permission");
      (106, "Session timeout");
      (107, "Session interrupted by duplicate login");
      (117, "Need manager rights for operation") ].

(** [_get_common_error_message] *)
Definition _get_common_error_message (code : Z) : string :=
  match COMMON_ERROR_CODES !! code with
  | None => "Unknown common error, please check the documentation"
  | Some m => m
  end.

(** [SynologyError.__init__]: after storing [code] and [message] it calls
    [super(SynologyError).__init__(text)].  [super] with one argument is an
    unbound super object, whose own [__init__] takes a type: given the text
    it raises [TypeError]. *)
Definition SynologyError_init (code : value) (message : string) : pyres unit :=
  Raise (TypeError "super() argument 1 must be type, not str").

(** [raise cls(code, message)] for a subclass [cls] of [SynologyError]: the
    instance is built, then raised. *)
Definition raise_error {A : Type} (cls : value → string → exn) (code : value)
    (message : string) : pyres A :=
  match SynologyError_init code message with
  | Ok _ => Raise (cls code message)
  | Raise e => Raise e
  end.

(** The arguments of [requests.get]. *)
Record request : Type := Request {
  rq_url : string;
  rq_verify : bool;
  rq_params : gmap string value;
  rq_cookies : gmap string value;
  rq_stream : bool;
  rq_timeout : Z }.

(** What the code reads of a response: the status, the [content-type]
    header if any, and the decoded body ([None] when it is not JSON). *)
Record response : Type := Response {
  status_code : Z;
  content_type : option string;
  json_body : option value }.

(** [requests.get] returns a response or raises (timeout, no route). *)
Inductive net_result : Type :=
| NetError
| NetResponse (r : response).

(** The attributes of an [Http] object. *)
Record http : Type := MkHttp {
  host : string;
  port : Z;
  username : string;
  password : string;
  https : bool;
  verify : bool;
  sid : value }.

(** [__init__] *)
Definition init (host : string) (port : Z) (username password : string)
    (https : bool) : http :=
  MkHttp host port username password https true VNone.

(** The arguments of [call]; [None] is the default of [params], [errors]. *)
Record call_args : Type := CallArgs {
  endpoint : string;
  api : string;
  method : string;
  version : Z;
  params : option (gmap string value);
  stream : bool;
  restricted : bool;
  retried : bool;
  errors : option (gmap Z string) }.

(** What [call] returns: a decoded value, or the raw response. *)
Inductive result : Type :=
| RValue (v : value)
| RResponse (r : response).

Section Transport.

(** The router: it answers a request from its state. *)
Variable server_state : Type.
Variable serve : server_state → request → server_state * net_result.

(** The object, the router, and the requests made so far (latest last). *)
Record world : Type := World {
  self : http;
  server : server_state;
  log : list request }.

Definition M (A : Type) : Type := world → world * pyres A.

Definition ret {A : Type} (a : A) : M A := λ w, (w, Ok a).
Definition bind {A B : Type} (m : M A) (f : A → M B) : M B := λ w,
  match m w with
  | (w', Ok a) => f a w'
  | (w', Raise e) => (w', Raise e)
  end.

Notation "'let!' x := m 'in' k" := (bind m (λ x, k))
  (at level 10, x name, m at level 100, k at level 200).

Definition lift {A : Type} (r : pyres A) : M A := λ w, (w, r).
Definition get_self : M http := λ w, (w, Ok (self w)).
Definition set_sid (v : value) : M unit := λ w,
  let h := self w in
  (World (MkHttp (host h) (port h) (username h) (password h) (https h)
            (verify h) v) (server w) (log w), Ok ()).

(** [requests.get(...)] *)
Definition requests_get (rq : request) : M response := λ w,
  let '(s', r) := serve (server w) rq in
  let w' := World (self w) s' (log w ++ [rq]) in
  match r with
  | NetError => (w', Raise RequestException)
  | NetResponse resp => (w', Ok resp)
  end.

(** [_get_base_url] *)
Definition _get_base_url (h : http) : string :=
  (if https h then "https" else "http") +:+ "://" +:+ host h +:+ ":" +:+
  pretty (port h) +:+ "/webapi".

(** [response["sid"]] on what [call] returned. *)
Definition result_getitem (r : result) (key : string) : pyres value :=
  match r with
  | RValue v => py_getitem v key
  | RResponse _ => Raise (TypeError "object is not subscriptable")
  end.

(** [_login], calling [call] through [self_call]. *)
Definition _login (self_call : call_args → M result) : M unit :=
  let! h := get_self in
  let params : gmap string value :=
    <["passwd" := VStr (password h)]>
      (<["account" := VStr (username h)]> (<["format" := VStr "sid"]> ∅)) in
  let errors : gmap Z string :=
    list_to_map
      [ (400, "No such account or incorrect password");
        (401, "Account disabled");
        (402, "Permission denied");
        (403, "2-step verification code required");
        (404, "Failed to authenticate 2-step verification code") ] in
  let! response :=
    self_call (CallArgs "auth.cgi" "SYNO.API.Auth" "Login" 2 (Some params)
                 false false false (Some errors)) in
  let! new_sid := lift (result_getitem response "sid") in
  set_sid new_sid.

(** The test [success not in data and (data not in data or error not in
    data)], evaluated left to right. *)
Definition malformed (data : value) : pyres bool :=
  has_success ← py_contains "success" data;
  if negb has_success then
    has_data ← py_contains "data" data;
    if negb has_data then Ok true
    else
      has_error ← py_contains "error" data;
      Ok (negb has_error)
  else Ok false.

(** The request that [call] builds. *)
Definition build_request (h : http) (a : call_args) : request :=
  let url := _get_base_url h +:+ "/" +:+ endpoint a in
  let params := default ∅ (params a) in
  let cookies : gmap string value :=
    if is_None (sid h) then ∅ else <["id" := sid h]> ∅ in
  let params :=
    <["version" := VInt (version a)]>
      (<["method" := VStr (method a)]> (<["api" := VStr (api a)]> params)) in
  Request url (verify h) params cookies (stream a) 5.

(** The arguments of the second attempt: [params] is the dict that already
    holds [api], [method] and [version]; [stream] is not passed on. *)
Definition retry_args (rq : request) (a : call_args) : call_args :=
  CallArgs (endpoint a) (api a) (method a) (version a) (Some (rq_params rq))
    false true true (Some (default ∅ (errors a))).

(** The part of [call] that follows the decoding of the body. *)
Definition handle_data (self_call : call_args → M result) (a : call_args)
    (rq : request) (data : value) : M result :=
  let errors := default ∅ (errors a) in
  let! bad := lift (malformed data) in
  if (bad : bool) then
    lift (Raise (SynologyHttpException
      "The output received by the server is malformed"))
  else
    let! success := lift (py_getitem data "success") in
    if negb (truthy success) then
      let! error := lift (py_getitem data "error") in
      let! code := lift (py_getitem error "code") in
      let! n := lift (py_int code) in
      if (100 <=? n) && (n <? 200) then
        let message := _get_common_error_message n in
        if (n =? 106) || (n =? 107) then
          if negb (restricted a) || retried a then
            lift (raise_error SynologyCommonError code message)
          else
            let! _ := _login self_call in
            self_call (retry_args rq a)
        else lift (raise_error SynologyCommonError code message)
      else
        let message :=
          match errors !! n with
          | Some m => m
          | None => "Unknown API error, please check the documentation"
          end in
        lift (raise_error SynologyApiError code message)
    else
      let! has_success := lift (py_contains "success" data) in
      let! has_data := lift (py_contains "data" data) in
      if has_success && negb has_data then
        let! v := lift (py_getitem data "success") in ret (RValue v)
      else
        let! v := lift (py_getitem data "data") in ret (RValue v).

(** The failure on a malformed envelope. *)
Definition malformed_failure : pyres result :=
  Raise (SynologyHttpException "The output received by the server is malformed").

(** The part of [call] that follows [requests.get]. *)
Definition handle_response (self_call : call_args → M result) (a : call_args)
    (rq : request) (response : response) : M result :=
  if negb (Z.eqb (status_code response) 200) then
    lift (Raise (SynologyHttpException
      ("The server answered a wrong status code (code=" +:+
       pretty (status_code response) +:+ ")")))
  else if bool_decide (content_type response = Some "application/zip") then
    ret (RResponse response)
  else
    let! data := lift (match json_body response with
                       | Some d => Ok d
                       | None => Raise JSONDecodeError
                       end) in
    handle_data self_call a rq data.

(** The body of [call], calling itself and [_login] through [self_call]. *)
Definition call_body (self_call : call_args → M result) (a : call_args)
  : M result :=
  let! h := get_self in
  let! _ := (if restricted a && is_None (sid h)
             then _login self_call else ret ()) in
  let! h := get_self in
  let rq := build_request h a in
  let! response := requests_get rq in
  handle_response self_call a rq response.

(** The world once the request of [a] has been sent and answered. *)
Definition sent (w : world) (a : call_args) (s' : server_state) : world :=
  World (self w) s' (log w ++ [build_request (self w) a]).

(** A computation that only adds requests to the log. *)
Definition grows {A : Type} (m : M A) : Prop :=
  ∀ w, ∃ l, log (m w).1 = (log w ++ l)%list.

(** A computation that sends at most [k] requests. *)
Definition sends_at_most {A : Type} (k : nat) (m : M A) : Prop :=
  ∀ w, ∃ l, log (m w).1 = (log w ++ l)%list ∧ (length l ≤ k)%nat.

(** The object with another session id. *)
Definition with_sid (h : http) (v : value) : http :=
  MkHttp (host h) (port h) (username h) (password h) (https h) (verify h) v.

(** The arguments with which [_login] calls [call]. *)
Definition login_args (h : http) : call_args :=
  CallArgs "auth.cgi" "SYNO.API.Auth" "Login" 2
    (Some (<["passwd" := VStr (password h)]>
             (<["account" := VStr (username h)]> (<["format" := VStr "sid"]> ∅))))
    false false false
    (Some (list_to_map
      [ (400, "No such account or incorrect password");
        (401, "Account disabled");
        (402, "Permission denied");
        (403, "2-step verification code required");
        (404, "Failed to authenticate 2-step verification code") ])).

(** [call]; [fuel] bounds the depth of the recursion. *)
Fixpoint call (fuel : nat) (a : call_args) : M result :=
  match fuel with
  | O => lift (Raise RecursionError)
  | S n => call_body (call n) a
  end.

(** [_login] as a method. *)
Definition login (fuel : nat) : M unit := _login (call fuel).

End Transport.

Arguments World {server_state} self server log.
Arguments self {server_state} w.
Arguments server {server_state} w.
Arguments log {server_state} w.
Arguments ret {server_state A} a.
Arguments bind {server_state A B} m f.
Arguments lift {server_state A} r.
Arguments get_self {server_state}.
Arguments set_sid {server_state} v.
Arguments requests_get {server_state} serve rq.
Arguments _login {server_state} self_call.
Arguments handle_data {server_state} self_call a rq data.
Arguments handle_response {server_state} self_call a rq response.
Arguments sent {server_state} w a s'.
Arguments grows {server_state A} m.
Arguments sends_at_most {server_state A} k m.
Arguments call_body {server_state} serve self_call a.
Arguments call {server_state} serve fuel a.
Arguments login {server_state} serve fuel.

End Http.

(** ** [api/wifi.py]: [ApiWifi.set_network_setting] *)

Module ApiWifi.

(** An argument of the method: a decoded value, or any other object
    (a tuple, a set, ...), which is neither a dict nor a list. *)
Inductive pyobj : Type :=
| PValue (v : value)
| PForeign.

(** The choice of [profiles_data]. *)
Definition profiles_data (profiles : pyobj) : pyres value :=
  match profiles with
  | PValue (VDict kvs) =>
      match assoc "profiles" kvs with
      | Some v => Ok v
      | None => Raise (ValueError "Profiles must be a list or dict with 'profiles' key")
      end
  | PValue (VList l) => Ok (VList l)
  | _ => Raise (ValueError "Profiles must be a list or dict with 'profiles' key")
  end.

Section Wifi.

Variable server_state : Type.
Variable serve : server_state → Http.request → server_state * Http.net_result.

(** [json.dumps] *)
Variable json_dumps : value → string.

(** The call that carries the serialised profiles. *)
Definition set_args (data : value) : Http.call_args :=
  Http.CallArgs "entry.cgi" "SYNO.Wifi.Network.Setting" "set" 1
    (Some (<["profiles" := VStr (json_dumps data)]> ∅))
    false true false None.

(** [set_network_setting]; [self.http.call] is [Http.call] with the
    recursion budget [fuel]. *)
Definition set_network_setting (fuel : nat) (profiles : pyobj)
  : Http.M server_state Http.result :=
  Http.bind (Http.lift (profiles_data profiles))
    (λ data, Http.call serve fuel (set_args data)).

End Wifi.

Arguments set_network_setting {server_state} serve json_dumps fuel profiles.

End ApiWifi.

(** ** [api/__init__.py]: [Api._filter] *)

(** [x == y] on decoded values; a dict carries every key once. *)
Fixpoint py_eq (x y : value) : bool :=
  match x, y with
  | VNone, VNone => true
  | VBool a, VBool b => Bool.eqb a b
  | VBool a, VInt n => Z.eqb (Z.b2z a) n
  | VInt m, VBool b => Z.eqb m (Z.b2z b)
  | VInt m, VInt n => Z.eqb m n
  | VStr s, VStr t => String.eqb s t
  | VList l, VList l' =>
      (fix eq_items (l l' : list value) : bool :=
         match l, l' with
         | [], [] => true
         | a :: r, b :: r' => py_eq a b && eq_items r r'
         | _, _ => false
         end) l l'
  | VDict kvs, VDict kvs' =>
      Nat.eqb (length kvs) (length kvs') &&
      (fix eq_values (kvs : list (string * value)) : bool :=
         match kvs with
         | [] => true
         | (k, v) :: r =>
             match assoc k kvs' with
             | Some v' => py_eq v v'
             | None => false
             end && eq_values r
         end) kvs
  | _, _ => false
  end.

Module Api.

(** [all(element[key] == value for key, value in filters.items())]: the
    constraints are tried in order, up to the first that fails. *)
Fixpoint satisfies (element : value) (filters : list (string * value))
  : pyres bool :=
  match filters with
  | [] => Ok true
  | (key, v) :: rest =>
      x ← py_getitem element key;
      if py_eq x v then satisfies element rest else Ok false
  end.

(** The list comprehension. *)
Fixpoint select (elements : list value) (filters : list (string * value))
  : pyres (list value) :=
  match elements with
  | [] => Ok []
  | element :: rest =>
      b ← satisfies element filters;
      l ← select rest filters;
      Ok (if (b : bool) then element :: l else l)
  end.

(** [_filter] *)
Definition _filter (elements filters : value) : pyres value :=
  match filters with
  | VDict (c :: cs) =>
      xs ← py_iter elements;
      l ← select xs (c :: cs);
      Ok (VList l)
  | _ => Ok elements
  end.

(** The element has every key of the constraints, with an equal value. *)
Definition matches (filters : list (string * value)) (element : value) : bool :=
  forallb (λ kv, match py_getitem element (fst kv) with
                 | Ok x => py_eq x (snd kv)
                 | Raise _ => false
                 end) filters.

(** The element can be asked for every key of the constraints. *)
Definition has_keys (filters : list (string * value)) (element : value) : bool :=
  forallb (λ kv, match py_getitem element (fst kv) with
                 | Ok _ => true
                 | Raise _ => false
                 end) filters.

End Api.

(** ** [client.py] and [switch.py]: the operations built on the transport *)

Module Client.

(** [response.get(key, default)] on what [call] returned. *)
Definition result_get (r : Http.result) (key : string) (default : value)
  : pyres value :=
  match r with
  | Http.RValue v => py_get v key default
  | Http.RResponse _ => Raise AttributeError
  end.

Section Operations.

Variable server_state : Type.
Variable serve : server_state → Http.request → server_state * Http.net_result.
Variable json_dumps : value → string.

(** [ApiWifi.get_network_setting], which [get_wifi_network_setting] calls. *)
Definition get_args : Http.call_args :=
  Http.CallArgs "entry.cgi" "SYNO.Wifi.Network.Setting" "get" 1 None
    false true false None.

Definition get_wifi_network_setting (fuel : nat)
  : Http.M server_state Http.result :=
  Http.call serve fuel get_args.

(** [ApiWifi.disconnect_device] *)
Definition disconnect_args (mac_address : value) : Http.call_args :=
  Http.CallArgs "entry.cgi" "SYNO.Wifi.Device" "get" 1
    (Some (<["mac" := mac_address]> ∅)) false true false None.

(** [Client.disconnect_wifi_device] *)
Definition disconnect_wifi_device (fuel : nat) (mac_address : value)
  : Http.M server_state value :=
  Http.bind (Http.call serve fuel (disconnect_args mac_address))
    (λ response, Http.lift (result_get response "success" (VBool false))).

(** The function [enable_radio] / [disable_radio] that the switch runs in
    [async_turn_on] / [async_turn_off]: fetch, change, write back.  The
    result of [manager.enable_radio] is not looked at. *)
Definition switch_radio (fuel : nat) (profile_id : Z) (radio_type : string)
    (enable : bool) : Http.M server_state Http.result :=
  Http.bind (get_wifi_network_setting fuel)
    (λ config,
       match config with
       | Http.RResponse _ => Http.lift (Raise AttributeError)
       | Http.RValue c =>
           match WiFiConfigManager.enable_radio c profile_id radio_type enable with
           | (c', Ok _) =>
               ApiWifi.set_network_setting serve json_dumps fuel
                 (ApiWifi.PValue (WiFiConfigManager.get_config c'))
           | (_, Raise e) => Http.lift (Raise e)
           end
       end).

End Operations.

Arguments get_wifi_network_setting {server_state} serve fuel.
Arguments disconnect_wifi_device {server_state} serve fuel mac_address.
Arguments switch_radio {server_state} serve json_dumps fuel profile_id
  radio_type enable.

End Client.

(** ** Objects and references

    A snapshot handed to [WiFiConfigManager] is an object of the heap; the
    manager keeps a reference to it. *)

Module Heap.

Definition loc : Type := positive.

(** A [WiFiConfigManager] object: its attribute [config]. *)
Record manager : Type := Manager { config : loc }.

(** [WiFiConfigManager.__init__]: [self.config = config]. *)
Definition init (config : loc) : manager := Manager config.

(** [get_config]: [return self.config]. *)
Definition get_config (m : manager) : loc := config m.

(** The contents behind a reference. *)
Definition read (σ : gmap loc value) (l : loc) : value :=
  default VNone (σ !! l).

(** [enable_radio] on the heap: the dicts reached from [self.config] are
    updated in place. *)
Definition enable_radio (m : manager) (profile_id : Z) (radio_type : string)
    (enable : bool) (σ : gmap loc value) : gmap loc value * pyres bool :=
  let '(c', r) :=
    WiFiConfigManager.enable_radio (read σ (config m)) profile_id radio_type
      enable in
  (<[config m := c']> σ, r).

(** [toggle_smart_connect] on the heap. *)
Definition toggle_smart_connect (m : manager) (profile_id : Z) (enable : bool)
    (σ : gmap loc value) : gmap loc value * pyres bool :=
  let '(c', r) :=
    WiFiConfigManager.toggle_smart_connect (read σ (config m)) profile_id
      enable in
  (<[config m := c']> σ, r).

(** The specification's reading of a model built from the snapshot [s]:
    a copy, which [setRadioEnabled] can change while [s] stays as fetched. *)
Definition independent_copy (s : loc) (m : manager) : Prop :=
  ∀ (σ : gmap loc value) profile_id radio_type enable,
    read (enable_radio m profile_id radio_type enable σ).1 s = read σ s.

End Heap.

(** ** The configuration tree of the specification

    A configuration is a dict whose [profiles], when present, is a list of
    profiles; a profile is a dict whose [radio_list], when present, is a
    list of radios; a radio is a dict. *)

Module Model.

Definition is_dict (x : value) : bool :=
  match x with
  | VDict _ => true
  | _ => false
  end.

(** The field [k] of a dict, [None] when it is missing. *)
Definition field (x : value) (k : string) : value :=
  match x with
  | VDict kvs => default VNone (assoc k kvs)
  | _ => VNone
  end.

Definition profile_list (config : value) : option (list value) :=
  match config with
  | VDict kvs =>
      match assoc "profiles" kvs with
      | None => Some []
      | Some (VList ps) => Some ps
      | Some _ => None
      end
  | _ => None
  end.

Definition radio_list (profile : value) : option (list value) :=
  match profile with
  | VDict kvs =>
      match assoc "radio_list" kvs with
      | None => Some []
      | Some (VList rs) => Some rs
      | Some _ => None
      end
  | _ => None
  end.

Definition radios (profile : value) : list value :=
  default [] (radio_list profile).

Definition wf_profile (profile : value) : bool :=
  match radio_list profile with
  | Some rs => forallb is_dict rs
  | None => false
  end.

Definition wf_config (config : value) : bool :=
  match profile_list config with
  | Some ps => forallb wf_profile ps
  | None => false
  end.

(** The value under the key [k] of a dict. *)
Definition key (x : value) (k : string) : option value :=
  match x with
  | VDict kvs => assoc k kvs
  | _ => None
  end.

(** Radio [j] of a profile, and radio [j] of profile [i]. *)
Definition nth_radio (profile : value) (j : nat) : option value :=
  match key profile "radio_list" with
  | Some (VList rs) => rs !! j
  | _ => None
  end.

Definition radio_at (config : value) (i j : nat) : option value :=
  match WiFiConfigManager.nth_profile config i with
  | Some p => nth_radio p j
  | None => None
  end.

(** A descriptor of the summary is the Smart-Connect toggle of a profile. *)
Definition is_toggle (d : value) : bool :=
  py_eq_str (field d "switch_type") "smart_connect_toggle".

(** Some profile of the list has the id. *)
Definition has_profile (profile_id : Z) (ps : list value) : bool :=
  existsb (λ p, py_eq_int (field p "id") profile_id) ps.

(** A field with the default that the source gives to [get]. *)
Definition field_or (x : value) (k : string) (d : value) : value :=
  match x with
  | VDict kvs => default d (assoc k kvs)
  | _ => d
  end.

Section Descriptors.

Variable py_str : value → string.

(** The descriptor of the Smart-Connect toggle of a profile, field by
    field. *)
Definition toggle_of (p : value) : value :=
  VDict [ ("profile_id", field p "id");
          ("radio_type", VStr "smart_connect_toggle");
          ("ssid", VStr " SmartConnect Toggle");
          ("network_type", field_or p "network_type" (VStr "custom"));
          ("profile_name",
           field_or p "name" (VStr ("Profile " +:+ py_str (field p "id"))));
          ("switch_type", VStr "smart_connect_toggle");
          ("enabled", field_or p "enable_smart_connect" (VBool false));
          ("always_available", VBool true) ].

(** The descriptor of a radio of a profile, field by field. *)
Definition radio_of (p r : value) : value :=
  let esc := field_or p "enable_smart_connect" (VBool false) in
  VDict [ ("profile_id", field p "id");
          ("radio_type", field r "radio_type");
          ("ssid",
           field_or r "ssid"
             (VStr ("Unknown_" +:+ py_str (field r "radio_type"))));
          ("network_type", field_or p "network_type" (VStr "custom"));
          ("profile_name",
           field_or p "name" (VStr ("Profile " +:+ py_str (field p "id"))));
          ("switch_type", VStr "radio");
          ("enabled", field_or r "enable" (VBool false));
          ("available",
           if py_eq_str (field r "radio_type") "SmartConnect" then esc
           else VBool (negb (truthy esc)));
          ("always_available", VBool false) ].

(** The descriptors of a profile: the toggle, then the radios in order. *)
Definition descriptors_of (p : value) : list value :=
  toggle_of p :: map (radio_of p) (radios p).

End Descriptors.

(** What a descriptor is about: its kind, its profile and its radio. *)
Definition subject (d : value) : option value * option value * option value :=
  (key d "switch_type", key d "profile_id", key d "radio_type").

(** The subjects that the summary of the profiles [ps] is to have, in
    order: for each profile the Smart-Connect toggle, then each radio of
    its radio list. *)
Definition subjects_of (ps : list value)
  : list (option value * option value * option value) :=
  flat_map
    (λ p, (Some (VStr "smart_connect_toggle"), Some (field p "id"),
           Some (VStr "smart_connect_toggle")) ::
          map (λ r, (Some (VStr "radio"), Some (field p "id"),
                     Some (field r "radio_type"))) (radios p))
    ps.

End Model.

(** ** Sample data *)

Module Sample.

Definition radio_24 : value :=
  VDict [("radio_type", VStr "2.4G"); ("enable", VBool false); ("ssid", VStr "Home")].

Definition radio_sc : value :=
  VDict [("radio_type", VStr "SmartConnect"); ("enable", VBool true); ("ssid", VStr "Home")].

(** Profile 1 has Smart Connect off, profile 2 has it on. *)
Definition profile_1 : value :=
  VDict [("id", VInt 1); ("name", VStr "Primary"); ("enable_smart_connect", VBool false);
         ("radio_list", VList [radio_24; radio_sc])].

Definition profile_2 : value :=
  VDict [("id", VInt 2); ("enable_smart_connect", VBool true);
         ("radio_list", VList [radio_sc])].

Definition config : value :=
  VDict [("profiles", VList [profile_1; profile_2])].

(** Connected devices, as [get_connected_devices] receives them. *)
Definition devices : list value :=
  [ VDict [("mac", VStr "aa:01"); ("band", VStr "5G"); ("is_online", VBool true)];
    VDict [("mac", VStr "aa:02"); ("band", VStr "2.4G"); ("is_online", VBool true)];
    VDict [("mac", VStr "aa:03"); ("band", VStr "5G"); ("is_online", VInt 1)] ].

(** [str] on the values that the sample needs. *)
Definition py_str (v : value) : string :=
  match v with
  | VNone => "None"
  | VBool true => "True"
  | VBool false => "False"
  | VInt n => pretty n
  | VStr s => s
  | _ => "..."
  end.

(** The double quote. *)
Definition quote : string := String (Ascii.ascii_of_nat 34) EmptyString.

(** [json.dumps] on values whose strings need no escape. *)
Fixpoint json_dumps (v : value) : string :=
  match v with
  | VNone => "null"
  | VBool true => "true"
  | VBool false => "false"
  | VInt n => pretty n
  | VStr s => quote +:+ s +:+ quote
  | VList l =>
      "[" +:+
      (fix items (l : list value) : string :=
         match l with
         | [] => ""
         | [x] => json_dumps x
         | x :: rest => json_dumps x +:+ ", " +:+ items rest
         end) l +:+ "]"
  | VDict kvs =>
      "{" +:+
      (fix items (kvs : list (string * value)) : string :=
         match kvs with
         | [] => ""
         | [(k, x)] => quote +:+ k +:+ quote +:+ ": " +:+ json_dumps x
         | (k, x) :: rest =>
             quote +:+ k +:+ quote +:+ ": " +:+ json_dumps x +:+ ", " +:+
             items rest
         end) kvs +:+ "}"
  end.

End Sample.

(** ** Sample traffic *)

Module Traffic.

Import Http.

(** A router that answers from a script, whatever the request. *)
Definition scripted (s : list net_result) (rq : request)
  : list net_result * net_result :=
  match s with
  | [] => ([], NetError)
  | r :: rest => (rest, r)
  end.

Definition json200 (d : value) : net_result :=
  NetResponse (Response 200 (Some "application/json") (Some d)).

(** [{"success": false, "error": {"code": c}}] *)
Definition failure (c : Z) : net_result :=
  json200 (VDict [("success", VBool false); ("error", VDict [("code", VInt c)])]).

(** [{"success": true, "data": d}] *)
Definition success (d : value) : net_result :=
  json200 (VDict [("success", VBool true); ("data", d)]).

(** An object that holds a session already. *)
Definition logged_in : http :=
  MkHttp "router" 8001 "admin" "secret" true true (VStr "S0").

Definition get_setting : call_args :=
  CallArgs "entry.cgi" "SYNO.Wifi.Network.Setting" "get" 1 None false true
    false None.

Definition start (script : list net_result) : world (list net_result) :=
  World logged_in script [].

(** Both attempts are answered with code 106; the login in between
    succeeds. *)
Definition expired_twice : list net_result :=
  [failure 106; success (VDict [("sid", VStr "S1")]); failure 106].

(** An envelope that has [data] and nothing else. *)
Definition data_only : list (string * value) := [("data", VInt 1)].

End Traffic.

(** ** The envelope of the specification *)

Module Envelope.

(** The envelope has none of [success], [data] and [error]: it misses both
    the success flag and the data/error structure. *)
Definition missing_flag_and_structure (kvs : list (string * value)) : bool :=
  bool_decide (assoc "success" kvs = None) &&
  bool_decide (assoc "data" kvs = None) &&
  bool_decide (assoc "error" kvs = None).

(** What the test of the source rejects: no [success], and [data] or
    [error] missing. *)
Definition rejected (kvs : list (string * value)) : bool :=
  bool_decide (assoc "success" kvs = None) &&
  (bool_decide (assoc "data" kvs = None) ||
   bool_decide (assoc "error" kvs = None)).

(** The answer [{"success": false, "error": {"code": n}}] with n = 106 or
    n = 107, possibly with more fields. *)
Definition expired (kvs : list (string * value)) (code : value) (n : Z) : Prop :=
  (∃ s, assoc "success" kvs = Some s ∧ truthy s = false) ∧
  (∃ error, assoc "error" kvs = Some error ∧ py_getitem error "code" = Ok code) ∧
  py_int code = Ok n ∧ (n = 106 ∨ n = 107).

End Envelope.

(** * Properties *)

Import WiFiConfigManager.

(** ** Dicts *)

Lemma assoc_dict_set_eq k v kvs : assoc k (dict_set k v kvs) = Some v.
Proof.
  induction kvs as [|[k' v'] rest IH]; simpl.
  - by rewrite String.eqb_refl.
  - destruct (String.eqb k' k) eqn:E; simpl; rewrite E; [done | apply IH].
Qed.

Lemma assoc_dict_set_ne k k' v kvs :
  k ≠ k' → assoc k' (dict_set k v kvs) = assoc k' kvs.
Proof.
  intros Hne. induction kvs as [|[k0 v0] rest IH]; simpl.
  - destruct (String.eqb_spec k k'); [done | done].
  - destruct (String.eqb_spec k0 k) as [->|Hk]; simpl.
    + destruct (String.eqb_spec k k'); [done | done].
    + by rewrite IH.
Qed.

Lemma dict_set_twice k v v' kvs :
  dict_set k v (dict_set k v' kvs) = dict_set k v kvs.
Proof.
  induction kvs as [|[k0 v0] rest IH]; simpl.
  - by rewrite String.eqb_refl.
  - destruct (String.eqb k0 k) eqn:E; simpl; rewrite E; [done | by rewrite IH].
Qed.

Lemma assoc_Some_nonempty k kvs v : assoc k kvs = Some v → truthy (VDict kvs) = true.
Proof. by destruct kvs. Qed.

(** ** Linear search *)

Lemma first_match_Some test xs i n x :
  first_match test xs i = Ok (Some (n, x)) →
  ∃ j, n = (i + j)%nat ∧ xs !! j = Some x ∧ test x = Ok true.
Proof.
  revert i. induction xs as [|y rest IH]; intros i; simpl; [done|].
  destruct (test y) as [[|]|e] eqn:Ht; simpl; [| |done].
  - intros [= <- <-]. exists 0%nat. split; [lia | done].
  - intros H. destruct (IH _ H) as (j & -> & Hj & Hx).
    exists (S j). split; [lia | done].
Qed.

Lemma first_match_insert test xs i j x x' :
  first_match test xs i = Ok (Some ((i + j)%nat, x)) →
  test x' = Ok true →
  first_match test (<[j:=x']> xs) i = Ok (Some ((i + j)%nat, x')).
Proof.
  revert i j. induction xs as [|y rest IH]; intros i j; simpl; [done|].
  destruct (test y) as [[|]|e] eqn:Ht; simpl; [| |done].
  - intros [= Hi <-] Hx'. assert (j = 0%nat) as -> by lia.
    simpl. rewrite Hx'. simpl. by rewrite Nat.add_0_r.
  - intros H Hx'. destruct (first_match_Some _ _ _ _ _ H) as (j' & Hj & _).
    destruct j as [|j]; [lia|]. simpl. rewrite Ht. simpl.
    replace (i + S j)%nat with (S i + j)%nat in * by lia. by apply IH.
Qed.

(** A test that passes tells that the item is a dict with the key. *)
Lemma profile_has_id_true pid p :
  profile_has_id pid p = Ok true →
  ∃ kvs v, p = VDict kvs ∧ assoc "id" kvs = Some v ∧ py_eq_int v pid = true.
Proof.
  destruct p as [| | | | |kvs]; try done. unfold profile_has_id. simpl.
  destruct (assoc "id" kvs) as [v|] eqn:E; simpl; [|done].
  intros [= H]. by exists kvs, v.
Qed.

Lemma radio_has_type_true rt r :
  radio_has_type rt r = Ok true →
  ∃ kvs v, r = VDict kvs ∧ assoc "radio_type" kvs = Some v ∧ py_eq_str v rt = true.
Proof.
  destruct r as [| | | | |kvs]; try done. unfold radio_has_type. simpl.
  destruct (assoc "radio_type" kvs) as [v|] eqn:E; simpl; [|done].
  intros [= H]. by exists kvs, v.
Qed.

(** A search that finds a dict went through a list. *)
Lemma py_iter_found test v xs i n kvs :
  py_iter v = Ok xs →
  first_match test xs i = Ok (Some (n, VDict kvs)) →
  v = VList xs.
Proof.
  intros Hit Hf. destruct (first_match_Some _ _ _ _ _ Hf) as (j & _ & Hj & _).
  destruct v as [| | |s|l|d]; simpl in Hit; try done.
  - injection Hit as <-. exfalso. clear Hf. revert j Hj.
    induction s as [|c s IH]; intros [|j]; simpl; try done. apply IH.
  - by injection Hit as <-.
  - injection Hit as <-. exfalso. rewrite list_lookup_fmap in Hj.
    by destruct (d !! j).
Qed.

(** ** Lookups *)

Lemma locate_profile_dict kvs ps pid :
  assoc "profiles" kvs = Some (VList ps) →
  locate_profile (VDict kvs) pid = first_match (profile_has_id pid) ps 0.
Proof. intros H. unfold locate_profile, get_profiles. simpl. by rewrite H. Qed.

Lemma locate_profile_Some config pid i p :
  locate_profile config pid = Ok (Some (i, p)) →
  ∃ kvs ps pkvs,
    config = VDict kvs ∧ assoc "profiles" kvs = Some (VList ps) ∧
    p = VDict pkvs ∧ ps !! i = Some p ∧
    first_match (profile_has_id pid) ps 0 = Ok (Some (i, p)) ∧
    profile_has_id pid p = Ok true ∧ truthy p = true.
Proof.
  unfold locate_profile, get_profiles.
  destruct config as [| | | | |kvs]; try done. simpl.
  destruct (py_iter _) as [xs|e] eqn:Hit; simpl; [|done].
  intros Hf. destruct (first_match_Some _ _ _ _ _ Hf) as (j & Hj & Hx & Ht).
  simpl in Hj. subst j.
  destruct (profile_has_id_true _ _ Ht) as (pkvs & v & -> & Hid & _).
  pose proof (py_iter_found _ _ _ _ _ _ Hit Hf) as Hl.
  destruct (assoc "profiles" kvs) as [pv|] eqn:Hp.
  - subst pv. exists kvs, xs, pkvs. repeat split; try done.
    by eapply assoc_Some_nonempty.
  - injection Hl as <-. done.
Qed.

Lemma locate_radio_dict kvs ps pkvs rs i pid rt :
  assoc "profiles" kvs = Some (VList ps) →
  first_match (profile_has_id pid) ps 0 = Ok (Some (i, VDict pkvs)) →
  assoc "radio_list" pkvs = Some (VList rs) →
  locate_radio (VDict kvs) pid rt =
    r ← first_match (radio_has_type rt) rs 0;
    Ok (match r with Some (j, radio) => Some ((i, j), radio) | None => None end).
Proof.
  intros Hp Hf Hr. unfold locate_radio. rewrite (locate_profile_dict _ _ _ Hp), Hf.
  destruct (first_match_Some _ _ _ _ _ Hf) as (_ & _ & _ & Ht).
  destruct (profile_has_id_true _ _ Ht) as (kvs' & v & Heq & Hid & _).
  simplify_eq. unfold mbind at 1, pyres_bind at 1.
  rewrite (assoc_Some_nonempty _ _ _ Hid). simpl. by rewrite Hr.
Qed.

Lemma locate_radio_Some config pid rt i j r :
  locate_radio config pid rt = Ok (Some ((i, j), r)) →
  ∃ kvs ps pkvs rs rkvs,
    config = VDict kvs ∧ assoc "profiles" kvs = Some (VList ps) ∧
    first_match (profile_has_id pid) ps 0 = Ok (Some (i, VDict pkvs)) ∧
    ps !! i = Some (VDict pkvs) ∧
    assoc "radio_list" pkvs = Some (VList rs) ∧
    first_match (radio_has_type rt) rs 0 = Ok (Some (j, VDict rkvs)) ∧
    rs !! j = Some (VDict rkvs) ∧
    r = VDict rkvs ∧ truthy r = true.
Proof.
  unfold locate_radio.
  destruct (locate_profile config pid) as [[[i0 p]|]|e] eqn:Hlp; simpl; [| done | done].
  destruct (locate_profile_Some _ _ _ _ Hlp)
    as (kvs & ps & pkvs & -> & Hps & -> & Hi & Hf & Ht & Htr).
  rewrite Htr. simpl.
  destruct (py_iter _) as [xs|e] eqn:Hit; simpl; [|done].
  destruct (first_match _ xs 0) as [[[j0 r0]|]|e] eqn:Hfr; simpl; [| done | done].
  intros [= -> -> ->].
  destruct (first_match_Some _ _ _ _ _ Hfr) as (j' & Hj & Hx & Htr').
  simpl in Hj. subst j'.
  destruct (radio_has_type_true _ _ Htr') as (rkvs & v & -> & Hrt & _).
  pose proof (py_iter_found _ _ _ _ _ _ Hit Hfr) as Hl.
  destruct (assoc "radio_list" pkvs) as [rv|] eqn:Hrl.
  - subst rv. exists kvs, ps, pkvs, xs, rkvs. repeat split; try done.
    by eapply assoc_Some_nonempty.
  - injection Hl as <-. done.
Qed.

Lemma get_profile_by_id_Some config pid p :
  get_profile_by_id config pid = Ok (Some p) →
  ∃ i, locate_profile config pid = Ok (Some (i, p)).
Proof.
  unfold get_profile_by_id.
  destruct (locate_profile config pid) as [[[i q]|]|e]; simpl; try done.
  intros [= ->]. by exists i.
Qed.

Lemma get_profile_by_id_None config pid :
  get_profile_by_id config pid = Ok None →
  locate_profile config pid = Ok None.
Proof.
  unfold get_profile_by_id.
  by destruct (locate_profile config pid) as [[[i q]|]|e].
Qed.

(** ** Availability *)

Import Model.

(** C2.  Availability follows the Smart-Connect flag of the profile that
    [get_profile_by_id] returns: with the flag true, the SmartConnect radio
    is available and the bands 2.4G, 5G-1, 5G-2 are not; with the flag false
    (or missing, which [get] reads as false) it is the other way round; with
    no profile of that id, nothing is available. *)
Theorem availability_follows_smart_connect (config : value) (profile_id : Z) :
  (∀ p, get_profile_by_id config profile_id = Ok (Some p) →
        py_get p "enable_smart_connect" (VBool false) = Ok (VBool true) →
        is_radio_available config profile_id "SmartConnect" = Ok (VBool true) ∧
        ∀ t, t ∈ ["2.4G"; "5G-1"; "5G-2"] →
             is_radio_available config profile_id t = Ok (VBool false)) ∧
  (∀ p, get_profile_by_id config profile_id = Ok (Some p) →
        py_get p "enable_smart_connect" (VBool false) = Ok (VBool false) →
        is_radio_available config profile_id "SmartConnect" = Ok (VBool false) ∧
        ∀ t, t ∈ ["2.4G"; "5G-1"; "5G-2"] →
             is_radio_available config profile_id t = Ok (VBool true)) ∧
  (get_profile_by_id config profile_id = Ok None →
   ∀ t, is_radio_available config profile_id t = Ok (VBool false)).
Proof.
  assert (Hbands : ∀ t, t ∈ ["2.4G"; "5G-1"; "5G-2"] →
                        String.eqb t "SmartConnect" = false).
  { intros t Ht. repeat (apply elem_of_cons in Ht as [->|Ht]; [done|]).
    by apply elem_of_nil in Ht. }
  assert (Hfound : ∀ p b,
    get_profile_by_id config profile_id = Ok (Some p) →
    py_get p "enable_smart_connect" (VBool false) = Ok (VBool b) →
    is_radio_available config profile_id "SmartConnect" = Ok (VBool b) ∧
    ∀ t, t ∈ ["2.4G"; "5G-1"; "5G-2"] →
         is_radio_available config profile_id t = Ok (VBool (negb b))).
  { intros p b Hp Hflag. unfold is_radio_available. rewrite Hp. simpl.
    destruct (get_profile_by_id_Some _ _ _ Hp) as (i & Hl).
    destruct (locate_profile_Some _ _ _ _ Hl) as (? & ? & ? & ? & ? & ? & ? & ? & ? & Htr).
    rewrite Htr, Hflag. simpl. split; [done|].
    intros t Ht. by rewrite (Hbands t Ht). }
  split; [|split].
  - intros p Hp Hflag. apply (Hfound p true Hp Hflag).
  - intros p Hp Hflag. apply (Hfound p false Hp Hflag).
  - intros Hp t. unfold is_radio_available. by rewrite Hp.
Qed.

Lemma availability_follows_smart_connect_witness :
  (is_radio_available Sample.config 2 "SmartConnect" = Ok (VBool true) ∧
   is_radio_available Sample.config 2 "5G-1" = Ok (VBool false)) ∧
  (is_radio_available Sample.config 1 "SmartConnect" = Ok (VBool false) ∧
   is_radio_available Sample.config 1 "2.4G" = Ok (VBool true)) ∧
  is_radio_available Sample.config 7 "2.4G" = Ok (VBool false).
Proof.
  split; [|split].
  - destruct (availability_follows_smart_connect Sample.config 2) as (H & _ & _).
    specialize (H Sample.profile_2 eq_refl eq_refl). destruct H as [Hsc Hb].
    split; [exact Hsc | apply Hb; set_solver].
  - destruct (availability_follows_smart_connect Sample.config 1) as (_ & H & _).
    specialize (H Sample.profile_1 eq_refl eq_refl). destruct H as [Hsc Hb].
    split; [exact Hsc | apply Hb; set_solver].
  - destruct (availability_follows_smart_connect Sample.config 7) as (_ & _ & H).
    apply (H eq_refl).
Defined.

(** C10.  For a profile that is present and a radio type other than
    SmartConnect, availability is the negation of the profile's flag,
    whatever the radio list holds: no hypothesis is made on the radio list,
    and two configurations whose profiles carry the same flag agree. *)
Theorem availability_ignores_radio_list
    (config : value) (profile_id : Z) (p : value) (t : string) (flag : value) :
  get_profile_by_id config profile_id = Ok (Some p) →
  t ≠ "SmartConnect" →
  py_get p "enable_smart_connect" (VBool false) = Ok flag →
  is_radio_available config profile_id t = Ok (VBool (negb (truthy flag))) ∧
  ∀ config' p',
    get_profile_by_id config' profile_id = Ok (Some p') →
    py_get p' "enable_smart_connect" (VBool false) = Ok flag →
    is_radio_available config' profile_id t =
    is_radio_available config profile_id t.
Proof.
  intros Hp Ht Hflag.
  assert (Hgen : ∀ c q,
    get_profile_by_id c profile_id = Ok (Some q) →
    py_get q "enable_smart_connect" (VBool false) = Ok flag →
    is_radio_available c profile_id t = Ok (VBool (negb (truthy flag)))).
  { intros c q Hq Hf. unfold is_radio_available. rewrite Hq. simpl.
    destruct (get_profile_by_id_Some _ _ _ Hq) as (i & Hl).
    destruct (locate_profile_Some _ _ _ _ Hl) as (? & ? & ? & ? & ? & ? & ? & ? & ? & Htr).
    rewrite Htr, Hf. simpl.
    by destruct (String.eqb_spec t "SmartConnect"). }
  split.
  - by apply (Hgen _ _ Hp).
  - intros c q Hq Hf. rewrite (Hgen _ _ Hq Hf). symmetry. by apply (Hgen _ _ Hp).
Qed.

Lemma availability_ignores_radio_list_witness :
  get_radio_by_type Sample.config 1 "6G" = Ok None ∧
  is_radio_available Sample.config 1 "6G" = Ok (VBool true).
Proof.
  split; [reflexivity|].
  refine (proj1 (availability_ignores_radio_list Sample.config 1
                   Sample.profile_1 "6G" (VBool false) eq_refl _ eq_refl)).
  discriminate.
Defined.

(** ** Unknown profile ids *)

Lemma first_match_absent pid ps i :
  forallb is_dict ps = true →
  has_profile pid ps = false →
  first_match (profile_has_id pid) ps i = Ok None.
Proof.
  revert i. induction ps as [|p ps IH]; intros i; simpl; [done|].
  intros [Hd Hds]%andb_prop [Hp Hps]%orb_false_elim.
  destruct p as [| | | | |kvs]; try done.
  unfold profile_has_id at 1. simpl in *.
  destruct (assoc "id" kvs); simpl in *; [rewrite Hp|]; by apply IH.
Qed.

Lemma locate_profile_absent config ps pid :
  profile_list config = Some ps →
  forallb is_dict ps = true →
  has_profile pid ps = false →
  locate_profile config pid = Ok None.
Proof.
  intros Hpl Hd Hn. destruct config as [| | | | |kvs]; try done.
  unfold locate_profile, get_profiles. simpl in *.
  destruct (assoc "profiles" kvs) as [[| | | |l|]|]; simplify_eq; simpl.
  - by apply first_match_absent.
  - done.
Qed.

(** C8.  In a configuration whose profiles are dicts, none of which has the
    given id, every query returns its absence value and every mutation
    returns false and leaves the configuration as it was; no operation
    raises. *)
Theorem unknown_profile_is_absent
    (config : value) (ps : list value) (profile_id : Z) :
  profile_list config = Some ps →
  forallb is_dict ps = true →
  has_profile profile_id ps = false →
  get_profile_by_id config profile_id = Ok None ∧
  (∀ radio_type,
     get_radio_by_type config profile_id radio_type = Ok None ∧
     is_radio_available config profile_id radio_type = Ok (VBool false) ∧
     is_radio_enabled config profile_id radio_type = Ok (VBool false) ∧
     ∀ enable,
       enable_radio config profile_id radio_type enable = (config, Ok false)) ∧
  is_smart_connect_enabled config profile_id = Ok (VBool false) ∧
  (∀ enable,
     toggle_smart_connect config profile_id enable = (config, Ok false)).
Proof.
  intros Hpl Hd Hn.
  pose proof (locate_profile_absent _ _ _ Hpl Hd Hn) as Hl.
  assert (Hg : get_profile_by_id config profile_id = Ok None).
  { unfold get_profile_by_id. by rewrite Hl. }
  assert (Hr : ∀ rt, locate_radio config profile_id rt = Ok None).
  { intros rt. unfold locate_radio. by rewrite Hl. }
  split; [done|]. split; [|split].
  - intros rt.
    assert (Hgr : get_radio_by_type config profile_id rt = Ok None).
    { unfold get_radio_by_type. by rewrite Hr. }
    split; [done|]. split; [|split].
    + unfold is_radio_available. by rewrite Hg.
    + unfold is_radio_enabled. by rewrite Hgr.
    + intros v. unfold enable_radio. by rewrite Hr.
  - unfold is_smart_connect_enabled. by rewrite Hg.
  - intros v. unfold toggle_smart_connect. by rewrite Hl.
Qed.

Lemma unknown_profile_is_absent_witness :
  get_profile_by_id Sample.config 7 = Ok None ∧
  is_radio_enabled Sample.config 7 "2.4G" = Ok (VBool false) ∧
  enable_radio Sample.config 7 "2.4G" true = (Sample.config, Ok false).
Proof.
  destruct (unknown_profile_is_absent Sample.config
              [Sample.profile_1; Sample.profile_2] 7 eq_refl eq_refl eq_refl)
    as (H1 & H2 & _).
  destruct (H2 "2.4G") as (_ & _ & H3 & H4).
  split; [exact H1 | split; [exact H3 | exact (H4 true)]].
Defined.

(** ** Enabling a radio *)

(** The configuration after [enable_radio] has found radio [j] of profile
    [i]. *)
Lemma enable_radio_found kvs ps pkvs rs rkvs i j pid rt v :
  assoc "profiles" kvs = Some (VList ps) →
  ps !! i = Some (VDict pkvs) →
  assoc "radio_list" pkvs = Some (VList rs) →
  locate_radio (VDict kvs) pid rt = Ok (Some ((i, j), VDict rkvs)) →
  truthy (VDict rkvs) = true →
  enable_radio (VDict kvs) pid rt v =
    (VDict (dict_set "profiles"
       (VList (<[i := VDict (dict_set "radio_list"
          (VList (<[j := VDict (dict_set "enable" (VBool v) rkvs)]> rs))
          pkvs)]> ps)) kvs), Ok true).
Proof.
  intros Hps Hi Hrs Hl Htr. unfold enable_radio. rewrite Hl, Htr. simpl.
  unfold write_radio, nth_profile. rewrite Hps, Hi.
  unfold write_radio_list. rewrite Hrs.
  unfold write_profile. by rewrite Hps.
Qed.

(** C6.  [enable_radio] changes at most the [enable] field of the radio
    that [get_radio_by_type] returns: with that radio at position [j] of
    profile [i], the other fields of the radio, the other radios of the
    profile, the other fields of the profile, the other profiles and the
    other fields of the configuration read as before.  When there is no such
    radio the configuration is returned as it was, with the result false;
    when the lookup raises, the configuration is as it was too. *)
Theorem enable_radio_frame
    (config : value) (profile_id : Z) (radio_type : string) (enable : bool) :
  match get_radio_by_type config profile_id radio_type with
  | Ok (Some r) =>
      ∃ i j config' r' p p',
        enable_radio config profile_id radio_type enable = (config', Ok true) ∧
        radio_at config i j = Some r ∧
        radio_at config' i j = Some r' ∧
        key r' "enable" = Some (VBool enable) ∧
        (∀ k, k ≠ "enable" → key r' k = key r k) ∧
        (∀ j', j' ≠ j → radio_at config' i j' = radio_at config i j') ∧
        nth_profile config i = Some p ∧
        nth_profile config' i = Some p' ∧
        (∀ k, k ≠ "radio_list" → key p' k = key p k) ∧
        (∀ i', i' ≠ i → nth_profile config' i' = nth_profile config i') ∧
        (∀ k, k ≠ "profiles" → key config' k = key config k)
  | Ok None =>
      enable_radio config profile_id radio_type enable = (config, Ok false)
  | Raise e =>
      enable_radio config profile_id radio_type enable = (config, Raise e)
  end.
Proof.
  unfold get_radio_by_type.
  destruct (locate_radio config profile_id radio_type)
    as [[[[i j] r]|]|e] eqn:Hl; simpl.
  - destruct (locate_radio_Some _ _ _ _ _ _ Hl)
      as (kvs & ps & pkvs & rs & rkvs & -> & Hps & Hfp & Hi & Hrs & Hfr & Hj & -> & Htr).
    pose proof (lookup_lt_Some _ _ _ Hi) as Hilt.
    pose proof (lookup_lt_Some _ _ _ Hj) as Hjlt.
    eexists i, j, _, _, _, _.
    split; [by eapply enable_radio_found|].
    unfold radio_at, nth_profile, nth_radio. simpl.
    rewrite Hps, Hi. simpl. rewrite Hrs, Hj.
    rewrite assoc_dict_set_eq, list_lookup_insert_eq by done. simpl.
    rewrite assoc_dict_set_eq, list_lookup_insert_eq by done.
    repeat split; try done.
    + simpl. apply assoc_dict_set_eq.
    + intros k Hk. simpl. by apply assoc_dict_set_ne.
    + intros j' Hj'. by rewrite list_lookup_insert_ne.
    + intros k Hk. simpl. by apply assoc_dict_set_ne.
    + intros i' Hi'. rewrite list_lookup_insert_ne by done. done.
    + intros k Hk. by apply assoc_dict_set_ne.
  - unfold enable_radio. by rewrite Hl.
  - unfold enable_radio. by rewrite Hl.
Qed.

(** After [enable_radio] the same radio is found again, with the new
    value of [enable]. *)
Lemma locate_radio_after_enable kvs ps pkvs rs rkvs i j pid rt v :
  assoc "profiles" kvs = Some (VList ps) →
  first_match (profile_has_id pid) ps 0 = Ok (Some (i, VDict pkvs)) →
  assoc "radio_list" pkvs = Some (VList rs) →
  first_match (radio_has_type rt) rs 0 = Ok (Some (j, VDict rkvs)) →
  locate_radio
    (VDict (dict_set "profiles"
       (VList (<[i := VDict (dict_set "radio_list"
          (VList (<[j := VDict (dict_set "enable" (VBool v) rkvs)]> rs))
          pkvs)]> ps)) kvs)) pid rt =
  Ok (Some ((i, j), VDict (dict_set "enable" (VBool v) rkvs))).
Proof.
  intros Hps Hfp Hrs Hfr.
  destruct (first_match_Some _ _ _ _ _ Hfp) as (i0 & Hi0 & _ & Htp).
  destruct (first_match_Some _ _ _ _ _ Hfr) as (j0 & Hj0 & _ & Htr).
  simpl in Hi0, Hj0. subst i0 j0.
  erewrite locate_radio_dict.
  - rewrite (first_match_insert _ _ 0 j _
               (VDict (dict_set "enable" (VBool v) rkvs)) Hfr); [done|].
    destruct (radio_has_type_true _ _ Htr) as (? & t & ? & Ht & Heq). simplify_eq.
    unfold radio_has_type. simpl.
    rewrite assoc_dict_set_ne by done. by rewrite Ht, Heq.
  - apply assoc_dict_set_eq.
  - apply (first_match_insert _ _ 0 i _ _ Hfp).
    destruct (profile_has_id_true _ _ Htp) as (? & t & ? & Ht & Heq). simplify_eq.
    unfold profile_has_id. simpl.
    rewrite assoc_dict_set_ne by done. by rewrite Ht, Heq.
  - apply assoc_dict_set_eq.
Qed.

(** C7.  When the radio exists, enabling it twice returns true both times,
    the second call leaves the configuration as the first one made it, and
    the radio then reads as enabled. *)
Theorem enable_radio_idempotent
    (config : value) (profile_id : Z) (radio_type : string) (r : value) :
  get_radio_by_type config profile_id radio_type = Ok (Some r) →
  ∃ config1,
    enable_radio config profile_id radio_type true = (config1, Ok true) ∧
    enable_radio config1 profile_id radio_type true = (config1, Ok true) ∧
    is_radio_enabled config1 profile_id radio_type = Ok (VBool true).
Proof.
  unfold get_radio_by_type.
  destruct (locate_radio config profile_id radio_type)
    as [[[[i j] r0]|]|e] eqn:Hl; simpl; [|done|done].
  intros [= ->].
  destruct (locate_radio_Some _ _ _ _ _ _ Hl)
    as (kvs & ps & pkvs & rs & rkvs & -> & Hps & Hfp & Hi & Hrs & Hfr & Hj & -> & Htr).
  pose proof (locate_radio_after_enable _ _ _ _ _ _ _ _ _ true Hps Hfp Hrs Hfr) as Hl1.
  pose proof (lookup_lt_Some _ _ _ Hi) as Hilt.
  set (rkvs1 := dict_set "enable" (VBool true) rkvs) in *.
  set (rs1 := <[j := VDict rkvs1]> rs) in *.
  set (pkvs1 := dict_set "radio_list" (VList rs1) pkvs) in *.
  set (ps1 := <[i := VDict pkvs1]> ps) in *.
  set (kvs1 := dict_set "profiles" (VList ps1) kvs) in *.
  assert (Htr1 : truthy (VDict rkvs1) = true).
  { apply (assoc_Some_nonempty "enable" _ (VBool true)), assoc_dict_set_eq. }
  exists (VDict kvs1). split; [by eapply enable_radio_found|]. split.
  - rewrite (enable_radio_found kvs1 ps1 pkvs1 rs1 rkvs1 i j profile_id
               radio_type true).
    + subst kvs1 ps1 pkvs1 rs1 rkvs1.
      rewrite (dict_set_twice "enable"), (list_insert_insert_eq rs),
        (dict_set_twice "radio_list"), (list_insert_insert_eq ps),
        (dict_set_twice "profiles").
      done.
    + apply assoc_dict_set_eq.
    + by apply list_lookup_insert_eq.
    + apply assoc_dict_set_eq.
    + exact Hl1.
    + exact Htr1.
  - unfold is_radio_enabled, get_radio_by_type. rewrite Hl1.
    unfold mbind, pyres_bind, deref. rewrite Htr1.
    unfold py_get, rkvs1. by rewrite assoc_dict_set_eq.
Qed.

Lemma enable_radio_idempotent_witness :
  ∃ config1,
    enable_radio Sample.config 1 "2.4G" true = (config1, Ok true) ∧
    enable_radio config1 1 "2.4G" true = (config1, Ok true) ∧
    is_radio_enabled config1 1 "2.4G" = Ok (VBool true).
Proof.
  exact (enable_radio_idempotent Sample.config 1 "2.4G" Sample.radio_24 eq_refl).
Defined.

(** ** The network summary *)

Section SummaryProperties.

Variable py_str : value → string.

Lemma radio_loop_dicts p rs networks :
  forallb is_dict rs = true →
  radio_loop py_str (field p "id")
    (field_or p "name" (VStr ("Profile " +:+ py_str (field p "id"))))
    (field_or p "network_type" (VStr "custom"))
    (field_or p "enable_smart_connect" (VBool false)) rs networks =
  Ok (networks ++ map (radio_of py_str p) rs)%list.
Proof.
  revert networks. induction rs as [|r rs IH]; intros networks; simpl.
  - intros _. by rewrite app_nil_r.
  - intros [Hd Hds]%andb_prop. destruct r as [| | | | |kvs]; try done. simpl.
    rewrite IH by done. by rewrite <- app_assoc.
Qed.

Lemma profile_loop_wf ps networks :
  forallb wf_profile ps = true →
  profile_loop py_str ps networks =
  Ok (networks ++ flat_map (descriptors_of py_str) ps)%list.
Proof.
  revert networks. induction ps as [|p ps IH]; intros networks; simpl.
  - intros _. by rewrite app_nil_r.
  - intros [Hp Hps]%andb_prop. unfold wf_profile in Hp.
    destruct p as [| | | | |kvs]; try done. simpl.
    pose proof (radio_loop_dicts (VDict kvs)) as Hloop. simpl in Hloop.
    unfold radios at 1. simpl in *.
    destruct (assoc "radio_list" kvs) as [[| | | |rs|]|]; try done; simpl.
    + rewrite Hloop by done. simpl. rewrite IH by done.
      by rewrite <- !app_assoc.
    + rewrite IH by done. by rewrite <- !app_assoc.
Qed.

Lemma descriptors_length ps :
  length (flat_map (descriptors_of py_str) ps) =
  (length ps + sum_list (map (λ p, length (radios p)) ps))%nat.
Proof.
  induction ps as [|p ps IH]; simpl; [done|].
  rewrite length_app, length_map, IH. lia.
Qed.

Lemma subjects_of_descriptors ps :
  map subject (flat_map (descriptors_of py_str) ps) = subjects_of ps.
Proof.
  unfold subjects_of. induction ps as [|p ps IH]; [done|].
  cbn [flat_map]. rewrite map_app, IH. f_equal.
  unfold descriptors_of. cbn [map]. f_equal.
  rewrite map_map. by apply map_ext.
Qed.

(** C3.  On a configuration tree, [get_network_summary] returns, profile
    after profile in the order of the list, the toggle descriptor of the
    profile followed by the descriptors of its radios in the order of its
    radio list: the descriptors are given field by field, and read by
    their kind, profile id and radio type they are, for each profile, the
    Smart-Connect toggle and then each radio of the radio list.  The length
    of the summary is the number of profiles plus the number of radios.
    The result is a function of the configuration. *)
Theorem summary_length_and_order (config : value) (ps : list value) :
  wf_config config = true →
  profile_list config = Some ps →
  ∃ networks,
    get_network_summary py_str config = Ok networks ∧
    networks = flat_map (descriptors_of py_str) ps ∧
    map subject networks = subjects_of ps ∧
    length networks =
      (length ps + sum_list (map (λ p, length (radios p)) ps))%nat.
Proof.
  intros Hwf Hpl. exists (flat_map (descriptors_of py_str) ps).
  split; [|split; [done|split; [apply subjects_of_descriptors
                               |apply descriptors_length]]].
  unfold wf_config in Hwf. rewrite Hpl in Hwf.
  destruct config as [| | | | |kvs]; try done.
  unfold get_network_summary, get_profiles. simpl in *.
  destruct (assoc "profiles" kvs) as [[| | | |l|]|]; simplify_eq; simpl.
  - by rewrite profile_loop_wf.
  - done.
Qed.

End SummaryProperties.

Lemma summary_length_and_order_witness :
  ∃ networks,
    get_network_summary Sample.py_str Sample.config = Ok networks ∧
    networks =
      [ toggle_of Sample.py_str Sample.profile_1;
        radio_of Sample.py_str Sample.profile_1 Sample.radio_24;
        radio_of Sample.py_str Sample.profile_1 Sample.radio_sc;
        toggle_of Sample.py_str Sample.profile_2;
        radio_of Sample.py_str Sample.profile_2 Sample.radio_sc ] ∧
    map subject networks =
      [ (Some (VStr "smart_connect_toggle"), Some (VInt 1),
         Some (VStr "smart_connect_toggle"));
        (Some (VStr "radio"), Some (VInt 1), Some (VStr "2.4G"));
        (Some (VStr "radio"), Some (VInt 1), Some (VStr "SmartConnect"));
        (Some (VStr "smart_connect_toggle"), Some (VInt 2),
         Some (VStr "smart_connect_toggle"));
        (Some (VStr "radio"), Some (VInt 2), Some (VStr "SmartConnect")) ] ∧
    length networks = 5%nat.
Proof.
  exact (summary_length_and_order Sample.py_str Sample.config
           [Sample.profile_1; Sample.profile_2] eq_refl eq_refl).
Defined.

(** ** The transport *)

Section TransportProperties.

Import Http.

Variable server_state : Type.
Variable serve : server_state → request → server_state * net_result.

Abbreviation world := (Http.world server_state).
Abbreviation M := (Http.M server_state).

(** *** The log *)

Lemma grows_ret {A} (a : A) : grows (ret a : M A).
Proof. intros w. exists []. by rewrite app_nil_r. Qed.

Lemma grows_lift {A} (r : pyres A) : grows (lift r : M A).
Proof. intros w. exists []. by rewrite app_nil_r. Qed.

Lemma grows_get_self : grows (get_self : M http).
Proof. intros w. exists []. by rewrite app_nil_r. Qed.

Lemma grows_set_sid v : grows (set_sid v : M unit).
Proof. intros w. exists []. by rewrite app_nil_r. Qed.

Lemma grows_requests_get rq : grows (requests_get serve rq).
Proof.
  intros w. exists [rq]. unfold requests_get.
  by destruct (serve (server w) rq) as [s' [|resp]].
Qed.

Lemma grows_bind {A B} (m : M A) (k : A → M B) :
  grows m → (∀ x, grows (k x)) → grows (bind m k).
Proof.
  intros Hm Hk w. unfold bind. destruct (Hm w) as [l Hl].
  destruct (m w) as [w' [x|e]]; simpl in *.
  - destruct (Hk x w') as [l' Hl']. exists (l ++ l')%list.
    by rewrite Hl', Hl, app_assoc.
  - by exists l.
Qed.

Ltac grows_step :=
  first
    [ solve [auto]
    | apply grows_ret | apply grows_lift | apply grows_get_self
    | apply grows_set_sid | apply grows_requests_get
    | progress cbv zeta
    | match goal with
      | |- grows (if ?b then _ else _) => destruct b
      | |- grows (bind _ _) => apply grows_bind; [|intros ?]
      end ].

Lemma grows_login (f : call_args → M result) :
  (∀ a, grows (f a)) → grows (_login f).
Proof. intros Hf. unfold _login. repeat grows_step. Qed.

Lemma grows_handle_data (f : call_args → M result) a rq data :
  (∀ a, grows (f a)) → grows (handle_data f a rq data).
Proof.
  intros Hf. pose proof (grows_login f Hf). unfold handle_data.
  repeat grows_step.
Qed.

Lemma grows_handle_response (f : call_args → M result) a rq resp :
  (∀ a, grows (f a)) → grows (handle_response f a rq resp).
Proof.
  intros Hf. pose proof (λ a rq data, grows_handle_data f a rq data Hf).
  unfold handle_response. repeat grows_step.
Qed.

Lemma grows_call_body (f : call_args → M result) a :
  (∀ a, grows (f a)) → grows (call_body serve f a).
Proof.
  intros Hf. pose proof (grows_login f Hf).
  pose proof (λ a rq resp, grows_handle_response f a rq resp Hf).
  unfold call_body. repeat grows_step.
Qed.

Lemma grows_call fuel a : grows (call serve fuel a).
Proof.
  revert a. induction fuel as [|n IH]; intros a; simpl.
  - apply grows_lift.
  - by apply grows_call_body.
Qed.

(** *** Steps of the monad *)

Lemma bind_lift_ok {A B} (x : A) (k : A → M B) (w : world) :
  bind (lift (Ok x)) k w = k x w.
Proof. done. Qed.

Lemma bind_lift_raise {A B} (e : exn) (k : A → M B) (w : world) :
  bind (lift (Raise e)) k w = (w, Raise e).
Proof. done. Qed.

Lemma bind_ret {A B} (x : A) (k : A → M B) (w : world) :
  bind (ret x) k w = k x w.
Proof. done. Qed.

Lemma bind_get_self {B} (k : http → M B) (w : world) :
  bind get_self k w = k (self w) w.
Proof. done. Qed.

(** [call] up to the decoded body, when no login comes first. *)
Lemma call_body_decoded (f : call_args → M result) a (w : world) s' resp data :
  restricted a && is_None (sid (self w)) = false →
  serve (server w) (build_request (self w) a) = (s', NetResponse resp) →
  status_code resp = 200 →
  content_type resp ≠ Some "application/zip" →
  json_body resp = Some data →
  call_body serve f a w =
  handle_data f a (build_request (self w) a) data (sent w a s').
Proof.
  intros Hlogin Hserve Hstatus Hzip Hbody.
  unfold call_body. rewrite bind_get_self, Hlogin, bind_ret, bind_get_self.
  unfold bind at 1, requests_get. rewrite Hserve.
  unfold handle_response. rewrite Hstatus, Z.eqb_refl.
  rewrite bool_decide_eq_false_2 by done. rewrite Hbody. cbv [negb].
  by rewrite bind_lift_ok.
Qed.

Lemma malformed_dict kvs :
  malformed (VDict kvs) = Ok (Envelope.rejected kvs).
Proof.
  unfold malformed, Envelope.rejected. simpl.
  destruct (assoc "success" kvs), (assoc "data" kvs), (assoc "error" kvs); done.
Qed.

(** A call that needs no session sends its request first. *)
Lemma call_logs_request n a (w : world) :
  restricted a && is_None (sid (self w)) = false →
  ∃ l, log (call serve (S n) a w).1 =
       (log w ++ build_request (self w) a :: l)%list.
Proof.
  intros Hlogin. simpl. unfold call_body.
  rewrite bind_get_self, Hlogin, bind_ret, bind_get_self.
  unfold bind at 1, requests_get.
  destruct (serve (server w) (build_request (self w) a)) as [s' [|resp]].
  - by exists [].
  - destruct (grows_handle_response (call serve n) a
                (build_request (self w) a) resp (grows_call n)
                (World (self w) s' (log w ++ [build_request (self w) a])))
      as [l Hl].
    exists l. rewrite Hl. simpl. by rewrite <- app_assoc.
Qed.

(** With fuel left, a login sends a request; without, it fails at once. *)
Lemma login_logs_request n (w : world) :
  ∃ rq l, log (_login (call serve (S n)) w).1 = (log w ++ rq :: l)%list.
Proof.
  unfold _login. rewrite bind_get_self.
  match goal with |- context [call serve (S n) ?args] => set (a := args) end.
  destruct (call_logs_request n a w eq_refl) as [l Hl].
  unfold bind at 1. destruct (call serve (S n) a w) as [w' [r|e]]; simpl in *.
  - exists (build_request (self w) a), l.
    unfold bind, lift, set_sid.
    by destruct (result_getitem r "sid").
  - by exists (build_request (self w) a), l.
Qed.

Lemma login_out_of_fuel (w : world) :
  _login (call serve 0) w = (w, Raise RecursionError).
Proof. done. Qed.

(** The second attempt never ends in the world of the first one with the
    malformed-response failure. *)
Lemma retry_elsewhere n a' (w : world) :
  bind (_login (call serve n)) (λ _, call serve n a') w ≠ (w, malformed_failure).
Proof.
  destruct n as [|n].
  - unfold bind. by rewrite login_out_of_fuel.
  - intros Heq.
    destruct (login_logs_request n w) as (rq & l & Hl).
    unfold bind in Heq.
    destruct (_login (call serve (S n)) w) as [w1 [[]|e]]; cbn [fst] in Hl.
    + destruct (grows_call (S n) a' w1) as [l' Hl']. rewrite Heq in Hl'.
      cbn [fst] in Hl'. rewrite Hl, <- app_assoc in Hl'.
      apply (f_equal length) in Hl'. rewrite !length_app in Hl'.
      cbn [length] in Hl'. lia.
    + injection Heq as -> _. apply (f_equal length) in Hl.
      rewrite !length_app in Hl. cbn [length] in Hl. lia.
Qed.

(** The built-in operations do not raise the transport's exception. *)
Lemma py_getitem_other {A} x k (f : value → A) :
  f <$> py_getitem x k ≠ Raise (SynologyHttpException
    "The output received by the server is malformed").
Proof. destruct x; simpl; try done. by destruct (assoc k kvs). Qed.

Lemma py_int_other {A} x (f : Z → A) :
  f <$> py_int x ≠ Raise (SynologyHttpException
    "The output received by the server is malformed").
Proof. by destruct x. Qed.

(** What [handle_data] does with an envelope that passes the test: it stops
    in the same world with another outcome, or it logs in and calls again. *)
Lemma handle_data_passed (f : call_args → M result) a rq kvs (w : world) :
  Envelope.rejected kvs = false →
  let out := handle_data f a rq (VDict kvs) w in
  (out.1 = w ∧ out.2 ≠ malformed_failure) ∨
  (restricted a = true ∧ retried a = false ∧
   out = bind (_login f) (λ _, f (retry_args rq a)) w).
Proof.
  intros Hrej. cbv zeta. unfold handle_data.
  rewrite malformed_dict, Hrej, !bind_lift_ok.
  pose proof (py_getitem_other (VDict kvs) "success" RValue) as Hs.
  pose proof (py_getitem_other (VDict kvs) "data" RValue) as Hd.
  pose proof (py_getitem_other (VDict kvs) "error" RValue) as He.
  destruct (py_getitem (VDict kvs) "success") as [success|e];
    [rewrite !bind_lift_ok | by left].
  destruct (truthy success); cbv [negb].
  - cbn [py_contains]. rewrite !bind_lift_ok.
    destruct (_ && _).
    + by left.
    + destruct (py_getitem (VDict kvs) "data") as [v|e]; by left.
  - destruct (py_getitem (VDict kvs) "error") as [error|e];
      [rewrite !bind_lift_ok | by left].
    pose proof (py_getitem_other error "code" RValue) as Hc.
    destruct (py_getitem error "code") as [code|e];
      [rewrite !bind_lift_ok | by left].
    pose proof (py_int_other code (λ _, RValue VNone)) as Hn.
    destruct (py_int code) as [n|e];
      [rewrite !bind_lift_ok | by left].
    destruct (_ && _); [|by left].
    destruct (_ || _); [|by left].
    destruct (restricted a), (retried a); cbv [negb orb]; try by left.
    by right.
Qed.

(** C5.  Take a call that needs no login first, whose request is answered
    with status 200 by a JSON object that is not an archive.  The call ends
    on that answer with the malformed-response failure exactly when the
    object has no [success] and lacks [data] or lacks [error]: an envelope
    with [data] alone, or with [error] alone, is rejected too.  For a call
    that cannot retry, the outcome alone tells. *)
Theorem malformed_envelope
    (fuel : nat) (a : call_args) (w : world) (s' : server_state)
    (resp : response) (kvs : list (string * value)) :
  restricted a && is_None (sid (self w)) = false →
  serve (server w) (build_request (self w) a) = (s', NetResponse resp) →
  status_code resp = 200 →
  content_type resp ≠ Some "application/zip" →
  json_body resp = Some (VDict kvs) →
  (call serve (S fuel) a w = (sent w a s', malformed_failure) ↔
   Envelope.rejected kvs = true) ∧
  (negb (restricted a) || retried a = true →
   ((call serve (S fuel) a w).2 = malformed_failure ↔
    Envelope.rejected kvs = true)).
Proof.
  intros Hlogin Hserve Hstatus Hzip Hbody. simpl call.
  rewrite (call_body_decoded _ _ _ _ _ _ Hlogin Hserve Hstatus Hzip Hbody).
  destruct (Envelope.rejected kvs) eqn:Hrej.
  - assert (Hm : handle_data (call serve fuel) a (build_request (self w) a)
                   (VDict kvs) (sent w a s') = (sent w a s', malformed_failure)).
    { unfold handle_data. cbv zeta. by rewrite malformed_dict, Hrej, bind_lift_ok. }
    rewrite Hm. done.
  - destruct (handle_data_passed (call serve fuel) a (build_request (self w) a)
                kvs (sent w a s') Hrej) as [[Hw Hne]|(Hres & Hret & Hr)].
    + split.
      * split; [|done]. intros Heq. by rewrite Heq in Hne.
      * intros _. split; [|done]. intros Heq. by rewrite Heq in Hne.
    + rewrite Hr. split.
      * split; [|done]. intros Heq. by apply retry_elsewhere in Heq.
      * rewrite Hres, Hret. done.
Qed.

(** *** The depth of the recursion *)

Lemma bind_ext {A B} (m m' : M A) (k k' : A → M B) (w : world) :
  m w = m' w → (∀ x w', k x w' = k' x w') → bind m k w = bind m' k' w.
Proof.
  intros Hm Hk. unfold bind. rewrite Hm.
  destruct (m' w) as [w' [x|e]]; [apply Hk | done].
Qed.

Lemma login_ext (f g : call_args → M result) (w : world) :
  (∀ a' w', restricted a' = false → f a' w' = g a' w') →
  _login f w = _login g w.
Proof.
  intros H. unfold _login. apply bind_ext; [done|]. intros h w1.
  apply bind_ext; [by apply H | done].
Qed.

Lemma handle_data_ext (f g : call_args → M result) a rq data (w : world) :
  (restricted a = true → ∀ a' w', restricted a' = false → f a' w' = g a' w') →
  (restricted a = true → retried a = false →
   ∀ w', f (retry_args rq a) w' = g (retry_args rq a) w') →
  handle_data f a rq data w = handle_data g a rq data w.
Proof.
  intros H1 H2. unfold handle_data. cbv zeta.
  apply bind_ext; [done|]. intros [|] w1; [done|].
  apply bind_ext; [done|]. intros success w2.
  destruct (negb (truthy success)); [|done].
  apply bind_ext; [done|]. intros error w3.
  apply bind_ext; [done|]. intros code w4.
  apply bind_ext; [done|]. intros n w5.
  destruct (_ && _); [|done]. destruct (_ || _); [|done].
  destruct (restricted a) eqn:Hr, (retried a) eqn:Ht; cbv [negb orb]; try done.
  apply bind_ext; [apply login_ext; by apply H1|]. intros _ w6. by apply H2.
Qed.

Lemma call_body_ext (f g : call_args → M result) a (w : world) :
  (restricted a = true → ∀ a' w', restricted a' = false → f a' w' = g a' w') →
  (restricted a = true → retried a = false →
   ∀ rq w', f (retry_args rq a) w' = g (retry_args rq a) w') →
  call_body serve f a w = call_body serve g a w.
Proof.
  intros H1 H2. unfold call_body.
  apply bind_ext; [done|]. intros h w1.
  apply bind_ext.
  { destruct (restricted a) eqn:Hr; [|done].
    destruct (is_None (sid h)); [|done]. apply login_ext. by apply H1. }
  intros _ w2. apply bind_ext; [done|]. intros h' w3.
  apply bind_ext; [done|]. intros resp w4.
  unfold handle_response.
  destruct (negb _); [done|]. destruct (bool_decide _); [done|].
  apply bind_ext; [done|]. intros data w5.
  apply handle_data_ext; [done|]. intros Hr Ht w'. by apply H2.
Qed.

(** A call that needs no session does not recurse. *)
Lemma call_unrestricted_fuel n a (w : world) :
  restricted a = false → call serve (S n) a w = call serve 1 a w.
Proof.
  intros Hr. simpl. apply call_body_ext; intros Hr'; congruence.
Qed.

(** A second attempt recurses once at most, to log in. *)
Lemma call_retried_fuel n a (w : world) :
  retried a = true → call serve (S (S n)) a w = call serve 2 a w.
Proof.
  intros Ht. change (call_body serve (call serve (S n)) a w =
                     call_body serve (call serve 1) a w).
  apply call_body_ext.
  - intros _ a' w' Hr'. by apply call_unrestricted_fuel.
  - congruence.
Qed.

(** Three levels are enough for every call. *)
Lemma call_fuel n a (w : world) :
  call serve (S (S (S n))) a w = call serve 3 a w.
Proof.
  change (call_body serve (call serve (S (S n))) a w =
          call_body serve (call serve 2) a w).
  apply call_body_ext.
  - intros _ a' w' Hr'.
    rewrite (call_unrestricted_fuel (S n)) by done.
    by rewrite (call_unrestricted_fuel 1).
  - intros _ _ rq w'. by apply call_retried_fuel.
Qed.

(** *** Session expiry *)

Lemma py_getitem_dict kvs k v :
  assoc k kvs = Some v → py_getitem (VDict kvs) k = Ok v.
Proof. intros H. simpl. by rewrite H. Qed.

Lemma expired_not_rejected kvs code n :
  Envelope.expired kvs code n → Envelope.rejected kvs = false.
Proof.
  intros ((s & Hs & _) & _). unfold Envelope.rejected. by rewrite Hs.
Qed.

(** On the first attempt of a call that requires a session, the answer
    106/107 makes the transport log in and call once more, with
    [retried] set. *)
Lemma expired_first_attempt (f : call_args → M result) a rq kvs code n (w : world) :
  Envelope.expired kvs code n →
  restricted a = true → retried a = false →
  handle_data f a rq (VDict kvs) w =
  bind (_login f) (λ _, f (retry_args rq a)) w.
Proof.
  intros Hexp Hr Ht. pose proof (expired_not_rejected _ _ _ Hexp) as Hrej.
  destruct Hexp as ((s & Hs & Hfalse) & (error & He & Hc) & Hn & H67).
  unfold handle_data. cbv zeta. rewrite malformed_dict, Hrej, bind_lift_ok.
  rewrite (py_getitem_dict _ _ _ Hs), bind_lift_ok, Hfalse.
  change (negb false) with true. cbv iota.
  rewrite (py_getitem_dict _ _ _ He), bind_lift_ok, Hc, bind_lift_ok, Hn,
    bind_lift_ok.
  assert (((100 <=? n) && (n <? 200)) = true) as -> by (destruct H67; by subst).
  assert (((n =? 106) || (n =? 107)) = true) as -> by (destruct H67; by subst).
  by rewrite Hr, Ht.
Qed.

(** On a second attempt, or on a call that requires no session, the answer
    106/107 ends the call: nothing more is sent.  The source raises
    [SynologyCommonError(code, message)]; building that exception fails in
    [SynologyError.__init__], so the failure is a [TypeError]. *)
Lemma expired_last_attempt (f : call_args → M result) a rq kvs code n (w : world) :
  Envelope.expired kvs code n →
  negb (restricted a) || retried a = true →
  handle_data f a rq (VDict kvs) w =
  (w, Raise (TypeError "super() argument 1 must be type, not str")).
Proof.
  intros Hexp Hlast. pose proof (expired_not_rejected _ _ _ Hexp) as Hrej.
  destruct Hexp as ((s & Hs & Hfalse) & (error & He & Hc) & Hn & H67).
  unfold handle_data. cbv zeta. rewrite malformed_dict, Hrej, bind_lift_ok.
  rewrite (py_getitem_dict _ _ _ Hs), bind_lift_ok, Hfalse.
  change (negb false) with true. cbv iota.
  rewrite (py_getitem_dict _ _ _ He), bind_lift_ok, Hc, bind_lift_ok, Hn,
    bind_lift_ok.
  assert (((100 <=? n) && (n <? 200)) = true) as -> by (destruct H67; by subst).
  assert (((n =? 106) || (n =? 107)) = true) as -> by (destruct H67; by subst).
  by rewrite Hlast.
Qed.

(** The second attempt asks for the same URL with the same parameters. *)
Lemma retry_request_same (h h' : http) a :
  _get_base_url h' = _get_base_url h →
  verify h' = verify h →
  let rq := build_request h a in
  let rq' := build_request h' (retry_args rq a) in
  rq_url rq' = rq_url rq ∧ rq_params rq' = rq_params rq ∧
  rq_verify rq' = rq_verify rq ∧ rq_timeout rq' = rq_timeout rq ∧
  rq_stream rq' = false.
Proof.
  intros Hurl Hv. simpl. rewrite Hurl, Hv. repeat split.
  apply map_eq. intros k. rewrite !lookup_insert.
  repeat case_decide; done.
Qed.

(** *** The recursion limit is not reached *)

Abbreviation safe r := (r ≠ Raise RecursionError).
Abbreviation norec m := (∀ w : world, safe (m w).2).

Lemma norec_lift {A} (r : pyres A) : safe r → norec (lift r).
Proof. done. Qed.

Lemma norec_bind {A B} (m : M A) (k : A → M B) :
  norec m → (∀ x, norec (k x)) → norec (bind m k).
Proof.
  intros Hm Hk w. unfold bind. specialize (Hm w).
  destruct (m w) as [w' [x|e]]; [apply Hk |].
  cbn in *. intros [= ->]. by apply Hm.
Qed.

Lemma py_getitem_safe x k : safe (py_getitem x k).
Proof. destruct x; simpl; try done. by destruct (assoc k kvs). Qed.

Lemma py_contains_safe k x : safe (py_contains k x).
Proof. by destruct x. Qed.

Lemma py_int_safe x : safe (py_int x).
Proof. by destruct x. Qed.

Lemma malformed_safe data : safe (malformed data).
Proof.
  unfold malformed. destruct data; simpl; try done.
  - by repeat destruct (contains_str _ _).
  - by repeat destruct (existsb _ _).
  - by repeat destruct (bool_decide _).
Qed.

Lemma raise_error_safe {A} cls code message :
  safe (raise_error (A := A) cls code message).
Proof. done. Qed.

Lemma norec_requests_get rq : norec (requests_get serve rq).
Proof.
  intros w. unfold requests_get. by destruct (serve (server w) rq) as [s' [|r]].
Qed.

Lemma norec_login (f : call_args → M result) :
  (∀ a', restricted a' = false → norec (f a')) → norec (_login f).
Proof.
  intros Hf. unfold _login. apply norec_bind; [done|]. intros h.
  apply norec_bind; [by apply Hf|]. intros r.
  apply norec_bind; [|done]. apply norec_lift.
  destruct r; [apply py_getitem_safe | done].
Qed.

Lemma norec_handle_data (f : call_args → M result) a rq data :
  (restricted a = true → ∀ a', restricted a' = false → norec (f a')) →
  (restricted a = true → retried a = false → norec (f (retry_args rq a))) →
  norec (handle_data f a rq data).
Proof.
  intros H1 H2. unfold handle_data. cbv zeta.
  apply norec_bind; [apply norec_lift, malformed_safe|]. intros [|]; [done|].
  apply norec_bind; [apply norec_lift, py_getitem_safe|]. intros success.
  destruct (negb (truthy success)).
  - apply norec_bind; [apply norec_lift, py_getitem_safe|]. intros error.
    apply norec_bind; [apply norec_lift, py_getitem_safe|]. intros code.
    apply norec_bind; [apply norec_lift, py_int_safe|]. intros n.
    destruct (_ && _); [|done]. destruct (_ || _); [|done].
    destruct (restricted a) eqn:Hr, (retried a) eqn:Ht; cbv [negb orb];
      try done.
    apply norec_bind; [apply norec_login; by apply H1|]. intros _. by apply H2.
  - apply norec_bind; [apply norec_lift, py_contains_safe|]. intros hs.
    apply norec_bind; [apply norec_lift, py_contains_safe|]. intros hd.
    destruct (_ && _);
      (apply norec_bind; [apply norec_lift, py_getitem_safe | done]).
Qed.

Lemma norec_call_body (f : call_args → M result) a :
  (restricted a = true → ∀ a', restricted a' = false → norec (f a')) →
  (restricted a = true → retried a = false →
   ∀ rq, norec (f (retry_args rq a))) →
  norec (call_body serve f a).
Proof.
  intros H1 H2. unfold call_body.
  apply norec_bind; [done|]. intros h.
  apply norec_bind.
  { destruct (restricted a) eqn:Hr; simpl; [|done].
    destruct (is_None (sid h)); [|done]. apply norec_login. by apply H1. }
  intros _. apply norec_bind; [done|]. intros h'.
  apply norec_bind; [apply norec_requests_get|]. intros resp.
  unfold handle_response.
  destruct (negb _); [done|]. destruct (bool_decide _); [done|].
  apply norec_bind; [by destruct (json_body resp)|]. intros data.
  apply norec_handle_data; [done|]. intros Hr Ht. by apply H2.
Qed.

(** With three levels no call reaches the bound: [call] returns or raises
    as the source does. *)
Lemma call_total a (w : world) :
  (call serve 3 a w).2 ≠ Raise RecursionError.
Proof.
  assert (H1 : ∀ a', restricted a' = false → norec (call serve 1 a')).
  { intros a' Hr. change (norec (call_body serve (call serve 0) a')).
    apply norec_call_body; congruence. }
  assert (H2 : ∀ a', retried a' = true → norec (call serve 2 a')).
  { intros a' Ht. change (norec (call_body serve (call serve 1) a')).
    apply norec_call_body; [|congruence].
    intros _ a'' Hr. by apply H1. }
  revert w. change (norec (call_body serve (call serve 2) a)).
  apply norec_call_body.
  - intros _ a' Hr w. rewrite (call_unrestricted_fuel 1) by done. by apply H1.
  - intros _ _ rq. by apply H2.
Qed.

End TransportProperties.

Lemma malformed_envelope_witness :
  Http.call Traffic.scripted 1 Traffic.get_setting
    (Traffic.start [Traffic.json200 (VDict Traffic.data_only)]) =
  (Http.sent (Traffic.start [Traffic.json200 (VDict Traffic.data_only)])
     Traffic.get_setting [], Http.malformed_failure).
Proof.
  refine (proj2 (proj1 (malformed_envelope (list Http.net_result)
    Traffic.scripted 0 Traffic.get_setting
    (Traffic.start [Traffic.json200 (VDict Traffic.data_only)]) []
    (Http.Response 200 (Some "application/json") (Some (VDict Traffic.data_only)))
    Traffic.data_only eq_refl eq_refl eq_refl _ eq_refl)) eq_refl).
  discriminate.
Defined.

(** An envelope that has [data], hence does not miss both the flag and the
    data/error structure, is rejected as malformed all the same. *)
Lemma data_only_envelope_is_rejected :
  Envelope.missing_flag_and_structure Traffic.data_only = false ∧
  (Http.call Traffic.scripted 1 Traffic.get_setting
     (Traffic.start [Traffic.json200 (VDict Traffic.data_only)])).2 =
  Http.malformed_failure.
Proof. split; [reflexivity | vm_compute; reflexivity]. Qed.

(** C1.  A call that requires a session and is answered with code 106 logs
    in and calls once more; when the second attempt is answered with 106
    too, nothing more is sent: three requests were made.  The call then
    fails, but not with the session error that carries the code and the
    message: [SynologyCommonError(106, "Session timeout")] cannot be built
    ([SynologyError.__init__] fails), and the failure is a [TypeError]. *)
Theorem session_error_cannot_be_raised :
  let run := Http.call Traffic.scripted 3 Traffic.get_setting
               (Traffic.start Traffic.expired_twice) in
  run.2 = Raise (TypeError "super() argument 1 must be type, not str") ∧
  run.2 ≠ Raise (SynologyCommonError (VInt 106) "Session timeout") ∧
  map (λ rq, Http.rq_params rq !! "method") (Http.log run.1) =
    [Some (VStr "get"); Some (VStr "Login"); Some (VStr "get")] ∧
  Http.sid (Http.self run.1) = VStr "S1".
Proof. vm_compute. repeat split; discriminate. Qed.

(** ** Setting the network configuration *)

Section WifiProperties.

Import Http ApiWifi.

Variable server_state : Type.
Variable serve : server_state → request → server_state * net_result.
Variable json_dumps : value → string.

Abbreviation world := (Http.world server_state).

(** C9.  A dict with the key [profiles] has the value under that key
    serialised and passed to the transport; a list is serialised itself;
    any other argument, a dict without the key among them, raises
    [ValueError] before anything is sent.  When a session exists, the first
    request that follows is the one that carries the serialised value. *)
Theorem set_network_setting_argument
    (fuel : nat) (profiles : pyobj) (w : world) :
  let run := set_network_setting serve json_dumps (S fuel) profiles w in
  let sends (data : value) :=
    run = call serve (S fuel) (set_args json_dumps data) w ∧
    (is_None (sid (self w)) = false →
     ∃ l, log run.1 =
            (log w ++ build_request (self w) (set_args json_dumps data) :: l)%list ∧
          rq_params (build_request (self w) (set_args json_dumps data))
            !! "profiles" = Some (VStr (json_dumps data))) in
  (∀ kvs data, profiles = PValue (VDict kvs) →
               assoc "profiles" kvs = Some data → sends data) ∧
  (∀ l, profiles = PValue (VList l) → sends (VList l)) ∧
  ((∀ kvs, profiles = PValue (VDict kvs) → assoc "profiles" kvs = None) →
   (∀ l, profiles ≠ PValue (VList l)) →
   run = (w, Raise (ValueError "Profiles must be a list or dict with 'profiles' key"))).
Proof.
  assert (Hsends : ∀ data, profiles_data profiles = Ok data →
    set_network_setting serve json_dumps (S fuel) profiles w =
      call serve (S fuel) (set_args json_dumps data) w ∧
    (is_None (sid (self w)) = false →
     ∃ l, log (set_network_setting serve json_dumps (S fuel) profiles w).1 =
            (log w ++ build_request (self w) (set_args json_dumps data) :: l)%list ∧
          rq_params (build_request (self w) (set_args json_dumps data))
            !! "profiles" = Some (VStr (json_dumps data)))).
  { intros data Hd.
    assert (Heq : set_network_setting serve json_dumps (S fuel) profiles w =
                  call serve (S fuel) (set_args json_dumps data) w).
    { unfold set_network_setting. by rewrite Hd. }
    split; [done|]. intros Hsid. rewrite Heq.
    destruct (call_logs_request _ serve fuel (set_args json_dumps data) w)
      as [l Hl]; [by rewrite Hsid|].
    exists l. split; [done|]. simpl.
    rewrite !lookup_insert_ne by done. by rewrite lookup_insert_eq. }
  cbv zeta. split; [|split].
  - intros kvs data -> Hk. apply Hsends. simpl. by rewrite Hk.
  - intros l ->. by apply Hsends.
  - intros Hdict Hlist. unfold set_network_setting.
    destruct profiles as [[| | | |l|kvs]|]; try done.
    + by destruct (Hlist l).
    + simpl. by rewrite (Hdict kvs eq_refl).
Qed.

End WifiProperties.

Lemma set_network_setting_argument_witness :
  let w := Traffic.start [Traffic.success (VBool true)] in
  ApiWifi.set_network_setting Traffic.scripted Sample.json_dumps 1
    (ApiWifi.PValue Sample.config) w =
  Http.call Traffic.scripted 1
    (ApiWifi.set_args Sample.json_dumps (VList [Sample.profile_1; Sample.profile_2])) w ∧
  ApiWifi.set_network_setting Traffic.scripted Sample.json_dumps 1
    (ApiWifi.PValue (VStr "profiles")) w =
  (w, Raise (ValueError "Profiles must be a list or dict with 'profiles' key")).
Proof.
  intros w.
  destruct (set_network_setting_argument (list Http.net_result) Traffic.scripted
              Sample.json_dumps 0 (ApiWifi.PValue Sample.config) w) as (Hd & _ & _).
  destruct (set_network_setting_argument (list Http.net_result) Traffic.scripted
              Sample.json_dumps 0 (ApiWifi.PValue (VStr "profiles")) w) as (_ & _ & He).
  split.
  - exact (proj1 (Hd _ _ eq_refl eq_refl)).
  - apply He; intros; discriminate.
Defined.

(** ** The model and the snapshot *)

(** C4.  [get_config] returns the reference that [__init__] stored: read
    back without a mutation in between, the configuration is the snapshot.
    The model holds the snapshot itself, not a copy: a mutation through the
    model is the mutation of the snapshot, and no other object of the heap
    changes. *)
Theorem model_shares_snapshot (s : Heap.loc) (σ : gmap Heap.loc value) :
  Heap.get_config (Heap.init s) = s ∧
  Heap.read σ (Heap.get_config (Heap.init s)) = Heap.read σ s ∧
  (∀ profile_id radio_type enable,
     let σ' := (Heap.enable_radio (Heap.init s) profile_id radio_type enable σ).1 in
     Heap.read σ' s =
       (enable_radio (Heap.read σ s) profile_id radio_type enable).1 ∧
     ∀ l, l ≠ s → σ' !! l = σ !! l) ∧
  (∀ profile_id enable,
     let σ' := (Heap.toggle_smart_connect (Heap.init s) profile_id enable σ).1 in
     Heap.read σ' s =
       (toggle_smart_connect (Heap.read σ s) profile_id enable).1 ∧
     ∀ l, l ≠ s → σ' !! l = σ !! l).
Proof.
  split; [done|]. split; [done|]. split.
  - intros pid rt v. unfold Heap.enable_radio. simpl.
    destruct (enable_radio (Heap.read σ s) pid rt v) as [c' r]. simpl.
    split.
    + unfold Heap.read. by rewrite lookup_insert_eq.
    + intros l Hl. by rewrite lookup_insert_ne.
  - intros pid v. unfold Heap.toggle_smart_connect. simpl.
    destruct (toggle_smart_connect (Heap.read σ s) pid v) as [c' r]. simpl.
    split.
    + unfold Heap.read. by rewrite lookup_insert_eq.
    + intros l Hl. by rewrite lookup_insert_ne.
Qed.

(** The model built from a snapshot is not a copy that can change while the
    snapshot stays as fetched. *)
Lemma model_is_not_a_copy :
  ¬ Heap.independent_copy 1%positive (Heap.init 1%positive).
Proof.
  intros H.
  specialize (H {[ 1%positive := Sample.config ]} 1 "2.4G" true).
  vm_compute in H. discriminate H.
Qed.

(** * Further properties of the configuration model *)

(** ** Searching a list in which one item was replaced *)

Lemma first_match_first test xs k n x :
  first_match test xs k = Ok (Some (n, x)) →
  ∃ i, n = (k + i)%nat ∧ xs !! i = Some x ∧ test x = Ok true ∧
       ∀ i', (i' < i)%nat → ∃ y, xs !! i' = Some y ∧ test y = Ok false.
Proof.
  revert k. induction xs as [|y rest IH]; intros k; simpl; [done|].
  destruct (test y) as [[|]|e] eqn:Ht; simpl; [| |done].
  - intros [= <- <-]. exists 0%nat. repeat split; [lia | done | lia].
  - intros H. destruct (IH _ H) as (i & -> & Hi & Hx & Hbefore).
    exists (S i). repeat split; [lia | done | done |].
    intros [|i'] Hlt; [by exists y|]. apply Hbefore. lia.
Qed.

Lemma first_match_replace test xs i x x' k :
  xs !! i = Some x →
  test x' = test x →
  first_match test (<[i:=x']> xs) k =
  match first_match test xs k with
  | Ok (Some (n, y)) => Ok (Some (n, if decide (n = (k + i)%nat) then x' else y))
  | r => r
  end.
Proof.
  revert i k. induction xs as [|y rest IH]; intros i k; [done|].
  destruct i as [|i]; simpl.
  - intros [= ->] Ht. rewrite Ht.
    destruct (test x) as [[|]|e]; simpl; [|  |done].
    + by rewrite Nat.add_0_r, decide_True.
    + destruct (first_match test rest (S k)) as [[[n y]|]|e] eqn:Hf; try done.
      destruct (first_match_Some _ _ _ _ _ Hf) as (j & -> & _).
      by rewrite decide_False by lia.
  - intros Hi Ht.
    destruct (test y) as [[|]|e]; simpl; [| |done].
    + by rewrite decide_False by lia.
    + rewrite (IH i (S k) Hi Ht).
      destruct (first_match test rest (S k)) as [[[n y0]|]|e]; try done.
      by replace (S k + i)%nat with (k + S i)%nat by lia.
Qed.

(** ** Smart Connect *)

Lemma toggle_found kvs ps pkvs i pid b :
  assoc "profiles" kvs = Some (VList ps) →
  first_match (profile_has_id pid) ps 0 = Ok (Some (i, VDict pkvs)) →
  toggle_smart_connect (VDict kvs) pid b =
  (VDict (dict_set "profiles"
     (VList (<[i := VDict (dict_set "enable_smart_connect" (VBool b) pkvs)]> ps))
     kvs), Ok true).
Proof.
  intros Hps Hf. unfold toggle_smart_connect.
  rewrite (locate_profile_dict _ _ _ Hps), Hf.
  destruct (first_match_Some _ _ _ _ _ Hf) as (_ & _ & _ & Ht).
  destruct (profile_has_id_true _ _ Ht) as (kvs' & v & Heq & Hid & _).
  simplify_eq. rewrite (assoc_Some_nonempty _ _ _ Hid). simpl.
  unfold write_profile. by rewrite Hps.
Qed.

Lemma locate_profile_after_toggle kvs ps pkvs i pid b :
  assoc "profiles" kvs = Some (VList ps) →
  first_match (profile_has_id pid) ps 0 = Ok (Some (i, VDict pkvs)) →
  locate_profile
    (VDict (dict_set "profiles"
       (VList (<[i := VDict (dict_set "enable_smart_connect" (VBool b) pkvs)]> ps))
       kvs)) pid =
  Ok (Some (i, VDict (dict_set "enable_smart_connect" (VBool b) pkvs))).
Proof.
  intros Hps Hf.
  destruct (first_match_Some _ _ _ _ _ Hf) as (i0 & Hi0 & _ & Ht).
  simpl in Hi0. subst i0.
  erewrite locate_profile_dict by apply assoc_dict_set_eq.
  apply (first_match_insert _ _ 0 i _ _ Hf).
  destruct (profile_has_id_true _ _ Ht) as (? & t & ? & Hid & Heq). simplify_eq.
  unfold profile_has_id. simpl.
  rewrite assoc_dict_set_ne by done. by rewrite Hid, Heq.
Qed.

(** [toggle_smart_connect] changes at most the [enable_smart_connect] field
    of the profile that [get_profile_by_id] returns: its other fields (the
    radio list among them), the other profiles and the other fields of the
    configuration read as before.  Without such a profile the configuration
    is returned as it was, with the result false. *)
Theorem toggle_smart_connect_frame
    (config : value) (profile_id : Z) (enable : bool) :
  match get_profile_by_id config profile_id with
  | Ok (Some p) =>
      ∃ i config' p',
        toggle_smart_connect config profile_id enable = (config', Ok true) ∧
        nth_profile config i = Some p ∧
        nth_profile config' i = Some p' ∧
        key p' "enable_smart_connect" = Some (VBool enable) ∧
        (∀ k, k ≠ "enable_smart_connect" → key p' k = key p k) ∧
        (∀ i', i' ≠ i → nth_profile config' i' = nth_profile config i') ∧
        (∀ k, k ≠ "profiles" → key config' k = key config k)
  | Ok None =>
      toggle_smart_connect config profile_id enable = (config, Ok false)
  | Raise e =>
      toggle_smart_connect config profile_id enable = (config, Raise e)
  end.
Proof.
  unfold get_profile_by_id.
  destruct (locate_profile config profile_id) as [[[i p]|]|e] eqn:Hl; simpl.
  - destruct (locate_profile_Some _ _ _ _ Hl)
      as (kvs & ps & pkvs & -> & Hps & -> & Hi & Hf & Ht & Htr).
    pose proof (lookup_lt_Some _ _ _ Hi) as Hilt.
    eexists i, _, _. split; [by eapply toggle_found|].
    unfold nth_profile. rewrite Hps, assoc_dict_set_eq.
    rewrite list_lookup_insert_eq by done.
    repeat split; try done.
    + simpl. apply assoc_dict_set_eq.
    + intros k Hk. simpl. by apply assoc_dict_set_ne.
    + intros i' Hi'. by rewrite list_lookup_insert_ne.
    + intros k Hk. simpl. by apply assoc_dict_set_ne.
  - unfold toggle_smart_connect. by rewrite Hl.
  - unfold toggle_smart_connect. by rewrite Hl.
Qed.

(** After [toggle_smart_connect] has set the flag of an existing profile to
    [enable], the profile reads the flag back, the SmartConnect radio is
    available exactly when [enable] is true, and every other radio type
    exactly when it is false. *)
Theorem toggle_smart_connect_switches_availability
    (config : value) (profile_id : Z) (p : value) (enable : bool) :
  get_profile_by_id config profile_id = Ok (Some p) →
  ∃ config',
    toggle_smart_connect config profile_id enable = (config', Ok true) ∧
    is_smart_connect_enabled config' profile_id = Ok (VBool enable) ∧
    is_radio_available config' profile_id "SmartConnect" = Ok (VBool enable) ∧
    ∀ t, t ≠ "SmartConnect" →
         is_radio_available config' profile_id t = Ok (VBool (negb enable)).
Proof.
  intros Hp. destruct (get_profile_by_id_Some _ _ _ Hp) as (i & Hl).
  destruct (locate_profile_Some _ _ _ _ Hl)
    as (kvs & ps & pkvs & -> & Hps & -> & Hi & Hf & Ht & Htr).
  pose proof (locate_profile_after_toggle _ _ _ _ _ enable Hps Hf) as Hl'.
  set (pkvs' := dict_set "enable_smart_connect" (VBool enable) pkvs) in *.
  assert (Htr' : truthy (VDict pkvs') = true).
  { apply (assoc_Some_nonempty "enable_smart_connect" _ (VBool enable)),
      assoc_dict_set_eq. }
  assert (Hflag : py_get (VDict pkvs') "enable_smart_connect" (VBool false)
                  = Ok (VBool enable)).
  { unfold py_get, pkvs'. by rewrite assoc_dict_set_eq. }
  exists (VDict (dict_set "profiles" (VList (<[i:=VDict pkvs']> ps)) kvs)).
  split; [by eapply toggle_found|].
  unfold is_smart_connect_enabled, is_radio_available, get_profile_by_id.
  rewrite Hl'. unfold mbind, pyres_bind, deref. rewrite Htr', Hflag.
  cbv [negb]. repeat split.
  intros t Hne. by destruct (String.eqb_spec t "SmartConnect").
Qed.

Lemma toggle_smart_connect_switches_availability_witness :
  ∃ config',
    toggle_smart_connect Sample.config 1 true = (config', Ok true) ∧
    is_smart_connect_enabled config' 1 = Ok (VBool true) ∧
    is_radio_available config' 1 "SmartConnect" = Ok (VBool true) ∧
    ∀ t, t ≠ "SmartConnect" → is_radio_available config' 1 t = Ok (VBool false).
Proof.
  exact (toggle_smart_connect_switches_availability Sample.config 1
           Sample.profile_1 true eq_refl).
Defined.

(** ** Enabling and disabling a radio *)

(** For an existing radio, [enable_radio] with either value is read back by
    [is_radio_enabled], and a second call overrides the first: the
    configuration after two calls is the one that the second call alone
    gives. *)
Theorem enable_radio_last_write_wins
    (config : value) (profile_id : Z) (radio_type : string) (r : value)
    (first second : bool) :
  get_radio_by_type config profile_id radio_type = Ok (Some r) →
  ∃ config1,
    enable_radio config profile_id radio_type first = (config1, Ok true) ∧
    is_radio_enabled config1 profile_id radio_type = Ok (VBool first) ∧
    enable_radio config1 profile_id radio_type second =
      enable_radio config profile_id radio_type second.
Proof.
  unfold get_radio_by_type.
  destruct (locate_radio config profile_id radio_type)
    as [[[[i j] r0]|]|e] eqn:Hl; simpl; [|done|done].
  intros [= ->].
  destruct (locate_radio_Some _ _ _ _ _ _ Hl)
    as (kvs & ps & pkvs & rs & rkvs & -> & Hps & Hfp & Hi & Hrs & Hfr & Hj & -> & Htr).
  pose proof (locate_radio_after_enable _ _ _ _ _ _ _ _ _ first Hps Hfp Hrs Hfr) as Hl1.
  pose proof (lookup_lt_Some _ _ _ Hi) as Hilt.
  set (rkvs1 := dict_set "enable" (VBool first) rkvs) in *.
  set (rs1 := <[j := VDict rkvs1]> rs) in *.
  set (pkvs1 := dict_set "radio_list" (VList rs1) pkvs) in *.
  set (ps1 := <[i := VDict pkvs1]> ps) in *.
  set (kvs1 := dict_set "profiles" (VList ps1) kvs) in *.
  assert (Htr1 : truthy (VDict rkvs1) = true).
  { apply (assoc_Some_nonempty "enable" _ (VBool first)), assoc_dict_set_eq. }
  exists (VDict kvs1). split; [by eapply enable_radio_found|]. split.
  - unfold is_radio_enabled, get_radio_by_type. rewrite Hl1.
    unfold mbind, pyres_bind, deref. rewrite Htr1.
    unfold py_get, rkvs1. by rewrite assoc_dict_set_eq.
  - rewrite (enable_radio_found kvs1 ps1 pkvs1 rs1 rkvs1 i j profile_id
               radio_type second);
      [| apply assoc_dict_set_eq | by apply list_lookup_insert_eq
       | apply assoc_dict_set_eq | exact Hl1 | exact Htr1].
    rewrite (enable_radio_found kvs ps pkvs rs rkvs i j profile_id
               radio_type second) by done.
    subst kvs1 ps1 pkvs1 rs1 rkvs1.
    rewrite (dict_set_twice "enable"), (list_insert_insert_eq rs),
      (dict_set_twice "radio_list"), (list_insert_insert_eq ps),
      (dict_set_twice "profiles").
    done.
Qed.

Lemma enable_radio_last_write_wins_witness :
  ∃ config1,
    enable_radio Sample.config 1 "2.4G" true = (config1, Ok true) ∧
    is_radio_enabled config1 1 "2.4G" = Ok (VBool true) ∧
    enable_radio config1 1 "2.4G" false = enable_radio Sample.config 1 "2.4G" false.
Proof.
  exact (enable_radio_last_write_wins Sample.config 1 "2.4G" Sample.radio_24
           true false eq_refl).
Defined.

(** The profile found for any id after [enable_radio] is the one found
    before, up to its radio list. *)
Lemma locate_profile_after_enable kvs ps pkvs rs' i pid' :
  assoc "profiles" kvs = Some (VList ps) →
  ps !! i = Some (VDict pkvs) →
  locate_profile
    (VDict (dict_set "profiles"
       (VList (<[i := VDict (dict_set "radio_list" rs' pkvs)]> ps)) kvs)) pid' =
  match locate_profile (VDict kvs) pid' with
  | Ok (Some (n, y)) =>
      Ok (Some (n, if decide (n = i) then VDict (dict_set "radio_list" rs' pkvs)
                   else y))
  | other => other
  end.
Proof.
  intros Hps Hi.
  erewrite locate_profile_dict by apply assoc_dict_set_eq.
  rewrite (locate_profile_dict _ _ _ Hps).
  apply (first_match_replace _ _ _ _ _ 0 Hi).
  unfold profile_has_id. simpl. by rewrite assoc_dict_set_ne.
Qed.

(** [enable_radio] does not touch what availability depends on, and does
    not depend on it: for every profile id and radio type the answers of
    [is_radio_available] and [is_smart_connect_enabled] are the same after
    the call as before, and the call returns true exactly when the radio
    exists, available or not. *)
Theorem enable_radio_ignores_availability
    (config : value) (profile_id : Z) (radio_type : string) (enable : bool) :
  let config' := (enable_radio config profile_id radio_type enable).1 in
  (∀ pid' t, is_radio_available config' pid' t = is_radio_available config pid' t) ∧
  (∀ pid', is_smart_connect_enabled config' pid' =
           is_smart_connect_enabled config pid') ∧
  ((enable_radio config profile_id radio_type enable).2 = Ok true ↔
   ∃ r, get_radio_by_type config profile_id radio_type = Ok (Some r)).
Proof.
  cbv zeta. unfold get_radio_by_type.
  destruct (locate_radio config profile_id radio_type)
    as [[[[i j] r]|]|e] eqn:Hl.
  - destruct (locate_radio_Some _ _ _ _ _ _ Hl)
      as (kvs & ps & pkvs & rs & rkvs & -> & Hps & Hfp & Hi & Hrs & Hfr & Hj & -> & Htr).
    rewrite (enable_radio_found _ _ _ _ _ _ _ _ _ enable Hps Hi Hrs Hl Htr).
    cbn [fst snd].
    assert (Hsame : ∀ pid',
      match locate_profile (VDict kvs) pid' with
      | Ok (Some (n, y)) =>
          ∃ y', locate_profile
                  (VDict (dict_set "profiles"
                     (VList (<[i := VDict (dict_set "radio_list"
                        (VList (<[j := VDict (dict_set "enable" (VBool enable) rkvs)]> rs))
                        pkvs)]> ps)) kvs)) pid' = Ok (Some (n, y')) ∧
                truthy y' = truthy y ∧
                py_get y' "enable_smart_connect" (VBool false) =
                py_get y "enable_smart_connect" (VBool false)
      | other =>
          locate_profile
            (VDict (dict_set "profiles"
               (VList (<[i := VDict (dict_set "radio_list"
                  (VList (<[j := VDict (dict_set "enable" (VBool enable) rkvs)]> rs))
                  pkvs)]> ps)) kvs)) pid' = other
      end).
    { intros pid'. rewrite (locate_profile_after_enable _ _ _ _ _ _ Hps Hi).
      destruct (locate_profile (VDict kvs) pid') as [[[n y]|]|e'] eqn:Hl'; try done.
      eexists. split; [done|]. case_decide as Hn; [|done]. subst n.
      destruct (locate_profile_Some _ _ _ _ Hl')
        as (kvs0 & ps0 & pkvs0 & Hk & Hps0 & -> & Hi0 & _).
      simplify_eq. split.
      - rewrite (assoc_Some_nonempty _ _ _ Hrs).
        apply (assoc_Some_nonempty "radio_list" _
                 (VList (<[j := VDict (dict_set "enable" (VBool enable) rkvs)]> rs))),
          assoc_dict_set_eq.
      - unfold py_get. by rewrite assoc_dict_set_ne. }
    split; [|split].
    + intros pid' t. unfold is_radio_available, get_profile_by_id.
      specialize (Hsame pid').
      destruct (locate_profile (VDict kvs) pid') as [[[n y]|]|e'].
      * destruct Hsame as (y' & -> & Hty & Hflag).
        unfold mbind, pyres_bind, deref. by rewrite Hty, Hflag.
      * by rewrite Hsame.
      * by rewrite Hsame.
    + intros pid'. unfold is_smart_connect_enabled, get_profile_by_id.
      specialize (Hsame pid').
      destruct (locate_profile (VDict kvs) pid') as [[[n y]|]|e'].
      * destruct Hsame as (y' & -> & Hty & Hflag).
        unfold mbind, pyres_bind, deref. by rewrite Hty, Hflag.
      * by rewrite Hsame.
      * by rewrite Hsame.
    + split; [intros _; by eexists | done].
  - unfold enable_radio. rewrite Hl. cbn [fst snd].
    repeat split; try done. by intros [r [=]].
  - unfold enable_radio. rewrite Hl. cbn [fst snd].
    repeat split; try done. by intros [r [=]].
Qed.

(** ** What the lookups return *)

Lemma profile_has_id_field pid y b :
  profile_has_id pid y = Ok b → py_eq_int (field y "id") pid = b.
Proof.
  destruct y as [| | | | |kvs]; try done. unfold profile_has_id. simpl.
  by intros [= <-].
Qed.

Lemma radio_has_type_field rt y b :
  radio_has_type rt y = Ok b → py_eq_str (field y "radio_type") rt = b.
Proof.
  destruct y as [| | | | |kvs]; try done. unfold radio_has_type. simpl.
  by intros [= <-].
Qed.

(** [get_profile_by_id] returns the first profile of the list whose [id]
    equals the given one: every profile before it has another id. *)
Theorem get_profile_by_id_first_match (config : value) (profile_id : Z) (p : value) :
  get_profile_by_id config profile_id = Ok (Some p) →
  ∃ i, nth_profile config i = Some p ∧
       py_eq_int (field p "id") profile_id = true ∧
       ∀ i', (i' < i)%nat →
             ∃ p', nth_profile config i' = Some p' ∧
                   py_eq_int (field p' "id") profile_id = false.
Proof.
  intros Hp. destruct (get_profile_by_id_Some _ _ _ Hp) as (i & Hl).
  destruct (locate_profile_Some _ _ _ _ Hl)
    as (kvs & ps & pkvs & -> & Hps & -> & Hi & Hf & Ht & Htr).
  destruct (first_match_first _ _ _ _ _ Hf) as (i0 & Hi0 & _ & _ & Hbefore).
  simpl in Hi0. subst i0. exists i. unfold nth_profile. rewrite Hps.
  split; [done|]. split; [by apply profile_has_id_field|].
  intros i' Hlt. destruct (Hbefore i' Hlt) as (y & Hy & Hty).
  exists y. split; [done | by apply profile_has_id_field].
Qed.

Lemma get_profile_by_id_first_match_witness :
  ∃ i, nth_profile Sample.config i = Some Sample.profile_2 ∧
       py_eq_int (field Sample.profile_2 "id") 2 = true ∧
       ∀ i', (i' < i)%nat →
             ∃ p', nth_profile Sample.config i' = Some p' ∧
                   py_eq_int (field p' "id") 2 = false.
Proof.
  exact (get_profile_by_id_first_match Sample.config 2 Sample.profile_2 eq_refl).
Defined.

(** [get_radio_by_type] returns the first radio of the given type in the
    radio list of the profile that [get_profile_by_id] returns. *)
Theorem get_radio_by_type_first_match
    (config : value) (profile_id : Z) (radio_type : string) (r : value) :
  get_radio_by_type config profile_id radio_type = Ok (Some r) →
  ∃ p j, get_profile_by_id config profile_id = Ok (Some p) ∧
         nth_radio p j = Some r ∧
         py_eq_str (field r "radio_type") radio_type = true ∧
         ∀ j', (j' < j)%nat →
               ∃ r', nth_radio p j' = Some r' ∧
                     py_eq_str (field r' "radio_type") radio_type = false.
Proof.
  unfold get_radio_by_type.
  destruct (locate_radio config profile_id radio_type)
    as [[[[i j] r0]|]|e] eqn:Hl; simpl; [|done|done].
  intros [= ->].
  destruct (locate_radio_Some _ _ _ _ _ _ Hl)
    as (kvs & ps & pkvs & rs & rkvs & -> & Hps & Hfp & Hi & Hrs & Hfr & Hj & -> & Htr).
  destruct (first_match_first _ _ _ _ _ Hfr) as (j0 & Hj0 & _ & Ht & Hbefore).
  simpl in Hj0. subst j0. exists (VDict pkvs), j.
  split.
  { unfold get_profile_by_id. by rewrite (locate_profile_dict _ _ _ Hps), Hfp. }
  unfold nth_radio, key. rewrite Hrs.
  split; [done|]. split; [by apply radio_has_type_field|].
  intros j' Hlt. destruct (Hbefore j' Hlt) as (y & Hy & Hty).
  exists y. split; [done | by apply radio_has_type_field].
Qed.

Lemma get_radio_by_type_first_match_witness :
  ∃ p j, get_profile_by_id Sample.config 1 = Ok (Some p) ∧
         nth_radio p j = Some Sample.radio_sc ∧
         py_eq_str (field Sample.radio_sc "radio_type") "SmartConnect" = true ∧
         ∀ j', (j' < j)%nat →
               ∃ r', nth_radio p j' = Some r' ∧
                     py_eq_str (field r' "radio_type") "SmartConnect" = false.
Proof.
  exact (get_radio_by_type_first_match Sample.config 1 "SmartConnect"
           Sample.radio_sc eq_refl).
Defined.

(** ** What the summary says *)

Section SummaryFlags.

Variable py_str : value → string.

Lemma summary_wf (config : value) (ps : list value) :
  wf_config config = true →
  profile_list config = Some ps →
  get_network_summary py_str config = Ok (flat_map (descriptors_of py_str) ps).
Proof.
  intros Hwf Hpl. unfold wf_config in Hwf. rewrite Hpl in Hwf.
  destruct config as [| | | | |kvs]; try done.
  unfold get_network_summary, get_profiles. simpl in *.
  destruct (assoc "profiles" kvs) as [[| | | |l|]|]; simplify_eq; simpl.
  - by rewrite profile_loop_wf.
  - done.
Qed.

Lemma toggles_of_profile p :
  List.filter is_toggle (descriptors_of py_str p) = [toggle_of py_str p].
Proof.
  unfold descriptors_of. simpl. f_equal.
  induction (radios p) as [|r rs IH]; [done|]. simpl. exact IH.
Qed.

(** On a configuration tree the summary holds exactly one Smart-Connect
    toggle per profile, in profile order, and the toggles are the
    descriptors with [always_available] true: every other descriptor has
    [switch_type] "radio" and [always_available] false, whatever the radio
    is called. *)
Theorem summary_one_toggle_per_profile
    (config : value) (ps networks : list value) :
  wf_config config = true →
  profile_list config = Some ps →
  get_network_summary py_str config = Ok networks →
  List.filter is_toggle networks = map (toggle_of py_str) ps ∧
  Forall (λ d, if is_toggle d
               then key d "always_available" = Some (VBool true)
               else key d "switch_type" = Some (VStr "radio") ∧
                    key d "always_available" = Some (VBool false)) networks.
Proof.
  intros Hwf Hpl. rewrite (summary_wf _ _ Hwf Hpl). intros [= <-]. clear.
  split.
  - induction ps as [|p ps IH]; [done|].
    change (flat_map (descriptors_of py_str) (p :: ps))
      with (descriptors_of py_str p ++ flat_map (descriptors_of py_str) ps)%list.
    by rewrite List.filter_app, toggles_of_profile, IH.
  - apply Forall_forall. intros d Hd. apply list_elem_of_In in Hd.
    apply in_flat_map in Hd as (p & _ & Hd).
    destruct Hd as [<-|Hd]; [done|].
    apply in_map_iff in Hd as (r & <- & _). done.
Qed.

(** The flags of the summary are the answers of the queries: for a radio
    that [get_radio_by_type] returns, the summary holds the toggle of its
    profile and the descriptor of the radio, whose [available] is what
    [is_radio_available] answers, whose [enabled] is what [is_radio_enabled]
    answers, and the toggle's [enabled] is what [is_smart_connect_enabled]
    answers. *)
Theorem summary_flags_agree_with_queries
    (config : value) (profile_id : Z) (radio_type : string) (p r : value) :
  wf_config config = true →
  get_profile_by_id config profile_id = Ok (Some p) →
  get_radio_by_type config profile_id radio_type = Ok (Some r) →
  ∃ networks available enabled smart_connect,
    get_network_summary py_str config = Ok networks ∧
    In (toggle_of py_str p) networks ∧
    In (radio_of py_str p r) networks ∧
    key (radio_of py_str p r) "available" = Some available ∧
    is_radio_available config profile_id radio_type = Ok available ∧
    key (radio_of py_str p r) "enabled" = Some enabled ∧
    is_radio_enabled config profile_id radio_type = Ok enabled ∧
    key (toggle_of py_str p) "enabled" = Some smart_connect ∧
    is_smart_connect_enabled config profile_id = Ok smart_connect.
Proof.
  intros Hwf Hp Hr.
  pose proof Hr as Hr0. unfold get_radio_by_type in Hr0.
  destruct (locate_radio config profile_id radio_type)
    as [[[[i j] r0]|]|e] eqn:Hl; simpl in Hr0; [|done|done].
  injection Hr0 as ->.
  destruct (locate_radio_Some _ _ _ _ _ _ Hl)
    as (kvs & ps & pkvs & rs & rkvs & -> & Hps & Hfp & Hi & Hrs & Hfr & Hj & -> & Htr).
  assert (p = VDict pkvs) as ->.
  { unfold get_profile_by_id in Hp.
    rewrite (locate_profile_dict _ _ _ Hps), Hfp in Hp. by injection Hp. }
  assert (Hpl : profile_list (VDict kvs) = Some ps) by (simpl; by rewrite Hps).
  assert (Hrad : radios (VDict pkvs) = rs).
  { unfold radios, radio_list. by rewrite Hrs. }
  destruct (first_match_Some _ _ _ _ _ Hfp) as (_ & _ & _ & Htp).
  destruct (profile_has_id_true _ _ Htp) as (pk' & idv & Hpk & Hid & _).
  injection Hpk as <-.
  destruct (first_match_Some _ _ _ _ _ Hfr) as (_ & _ & _ & Htrd).
  destruct (radio_has_type_true _ _ Htrd) as (rk' & tv & Hrk & Htv & Heq).
  injection Hrk as <-.
  destruct tv as [| | |t'| |]; try done. simpl in Heq.
  apply String.eqb_eq in Heq. subst t'.
  eexists _, _, _, _. split; [by apply summary_wf|].
  split.
  { apply in_flat_map. exists (VDict pkvs). split.
    - apply list_elem_of_In. by eapply list_elem_of_lookup_2.
    - by left. }
  split.
  { apply in_flat_map. exists (VDict pkvs). split.
    - apply list_elem_of_In. by eapply list_elem_of_lookup_2.
    - right. rewrite Hrad. apply in_map, list_elem_of_In.
      by eapply list_elem_of_lookup_2. }
  split; [reflexivity|]. split.
  { unfold is_radio_available. rewrite Hp.
    unfold mbind, pyres_bind. rewrite (assoc_Some_nonempty _ _ _ Hid).
    simpl. rewrite Htv. simpl. by destruct (String.eqb radio_type "SmartConnect"). }
  split; [reflexivity|]. split.
  { unfold is_radio_enabled. rewrite Hr.
    unfold mbind, pyres_bind. by rewrite Htr. }
  split; [reflexivity|].
  unfold is_smart_connect_enabled. rewrite Hp.
  unfold mbind, pyres_bind. by rewrite (assoc_Some_nonempty _ _ _ Hid).
Qed.

End SummaryFlags.

Lemma summary_one_toggle_per_profile_witness :
  ∃ networks,
    get_network_summary Sample.py_str Sample.config = Ok networks ∧
    List.filter is_toggle networks =
      [toggle_of Sample.py_str Sample.profile_1;
       toggle_of Sample.py_str Sample.profile_2].
Proof.
  eexists. split; [reflexivity|].
  exact (proj1 (summary_one_toggle_per_profile Sample.py_str Sample.config
                  [Sample.profile_1; Sample.profile_2] _ eq_refl eq_refl eq_refl)).
Defined.

Lemma summary_flags_agree_with_queries_witness :
  ∃ networks available enabled smart_connect,
    get_network_summary Sample.py_str Sample.config = Ok networks ∧
    In (toggle_of Sample.py_str Sample.profile_1) networks ∧
    In (radio_of Sample.py_str Sample.profile_1 Sample.radio_sc) networks ∧
    key (radio_of Sample.py_str Sample.profile_1 Sample.radio_sc) "available"
      = Some available ∧
    is_radio_available Sample.config 1 "SmartConnect" = Ok available ∧
    key (radio_of Sample.py_str Sample.profile_1 Sample.radio_sc) "enabled"
      = Some enabled ∧
    is_radio_enabled Sample.config 1 "SmartConnect" = Ok enabled ∧
    key (toggle_of Sample.py_str Sample.profile_1) "enabled" = Some smart_connect ∧
    is_smart_connect_enabled Sample.config 1 = Ok smart_connect.
Proof.
  exact (summary_flags_agree_with_queries Sample.py_str Sample.config 1
           "SmartConnect" Sample.profile_1 Sample.radio_sc eq_refl eq_refl eq_refl).
Defined.

(** * Further properties of the transport *)

Section TransportFurther.

Import Http.

Variable server_state : Type.
Variable serve : server_state → request → server_state * net_result.

Abbreviation world := (Http.world server_state).
Abbreviation M := (Http.M server_state).

(** ** The depth of the recursion *)

(** [call] never nests deeper than three frames (the call, its second
    attempt, the login of the second attempt): a bound of three gives what
    any larger bound gives, and the bound is not hit. *)
Theorem call_depth_is_three (n : nat) (a : call_args) (w : world) :
  call serve (3 + n) a w = call serve 3 a w ∧
  (call serve (3 + n) a w).2 ≠ Raise RecursionError.
Proof.
  assert (H : call serve (3 + n) a w = call serve 3 a w) by apply call_fuel.
  split; [exact H|]. rewrite H. apply call_total.
Qed.

(** ** The number of requests *)

Lemma at_most_mono {A} (j k : nat) (m : M A) :
  (j ≤ k)%nat → sends_at_most j m → sends_at_most k m.
Proof.
  intros Hjk Hm w. destruct (Hm w) as (l & Hl & Hlen). exists l. split; [done|lia].
Qed.

Lemma at_most_pure {A} (m : M A) :
  (∀ w, log (m w).1 = log w) → sends_at_most 0 m.
Proof.
  intros H w. exists []. rewrite H. by rewrite app_nil_r.
Qed.

Lemma at_most_requests_get rq : sends_at_most 1 (requests_get serve rq).
Proof.
  intros w. exists [rq]. unfold requests_get.
  by destruct (serve (server w) rq) as [s' [|resp]].
Qed.

Lemma at_most_bind {A B} (j k : nat) (m : M A) (f : A → M B) :
  sends_at_most j m → (∀ x, sends_at_most k (f x)) →
  sends_at_most (j + k) (bind m f).
Proof.
  intros Hm Hf w. unfold bind. destruct (Hm w) as (l & Hl & Hlen).
  destruct (m w) as [w' [x|e]]; simpl in *.
  - destruct (Hf x w') as (l' & Hl' & Hlen'). exists (l ++ l')%list.
    rewrite Hl', Hl, app_assoc, length_app. split; [done|lia].
  - exists l. split; [done|lia].
Qed.

Lemma at_most_login (f : call_args → M result) :
  (∀ a, restricted a = false → sends_at_most 1 (f a)) →
  sends_at_most 1 (_login f).
Proof.
  intros Hf. unfold _login.
  apply (at_most_bind 0 1); [by apply at_most_pure|]. intros h.
  apply (at_most_bind 1 0); [by apply Hf|]. intros r.
  apply (at_most_bind 0 0); [by apply at_most_pure|].
  intros v. by apply at_most_pure.
Qed.

Lemma at_most_handle_data (f : call_args → M result) a rq data :
  (∀ a', restricted a' = false → sends_at_most 1 (f a')) →
  (∀ a', retried a' = true → sends_at_most 2 (f a')) →
  sends_at_most (if negb (restricted a) || retried a then 0 else 3)
    (handle_data f a rq data).
Proof.
  intros H1 H2. unfold handle_data. cbv zeta.
  assert (Hzero : ∀ (m : M result),
            sends_at_most 0 m →
            sends_at_most (if negb (restricted a) || retried a then 0 else 3) m).
  { intros m Hm. eapply at_most_mono; [|exact Hm]. lia. }
  assert (Hbind : ∀ {A} (r : pyres A) (k : A → M result),
            (∀ x, sends_at_most
                    (if negb (restricted a) || retried a then 0 else 3) (k x)) →
            sends_at_most (if negb (restricted a) || retried a then 0 else 3)
              (bind (lift r) k)).
  { intros A r k Hk.
    apply (at_most_bind 0 _ (lift r) k); [by apply at_most_pure | done]. }
  apply Hbind. intros [|]; [by apply Hzero, at_most_pure|].
  apply Hbind. intros success. destruct (negb (truthy success)).
  - apply Hbind. intros error. apply Hbind. intros code. apply Hbind. intros n.
    destruct ((100 <=? n) && (n <? 200)); [|by apply Hzero, at_most_pure].
    destruct ((n =? 106) || (n =? 107)); [|by apply Hzero, at_most_pure].
    destruct (negb (restricted a) || retried a); [by apply at_most_pure|].
    apply (at_most_bind 1 2); [by apply at_most_login|]. intros _. by apply H2.
  - apply Hbind. intros hs. apply Hbind. intros hd.
    destruct (_ && _); (apply Hbind; intros v; by apply Hzero, at_most_pure).
Qed.

Lemma at_most_call_body (f : call_args → M result) a :
  (∀ a', restricted a' = false → sends_at_most 1 (f a')) →
  (∀ a', retried a' = true → sends_at_most 2 (f a')) →
  sends_at_most
    ((if restricted a then 1 else 0) + 1 +
     (if negb (restricted a) || retried a then 0 else 3))
    (call_body serve f a).
Proof.
  intros H1 H2. unfold call_body.
  set (k3 := if negb (restricted a) || retried a then 0%nat else 3%nat).
  set (k1 := if restricted a then 1%nat else 0%nat).
  apply (at_most_bind 0 (k1 + 1 + k3) get_self); [by apply at_most_pure|].
  intros h. rewrite <- Nat.add_assoc.
  apply (at_most_bind k1 (1 + k3)).
  { subst k1. destruct (restricted a); simpl.
    - destruct (is_None (sid h)); [by apply at_most_login|].
      eapply at_most_mono; [|by apply at_most_pure]. lia.
    - by apply at_most_pure. }
  intros _. apply (at_most_bind 0 (1 + k3) get_self); [by apply at_most_pure|].
  intros h'.
  apply (at_most_bind 1 k3); [apply at_most_requests_get|]. intros resp.
  subst k3.
  unfold handle_response.
  assert (Hzero : ∀ (m : M result),
            sends_at_most 0 m →
            sends_at_most (if negb (restricted a) || retried a then 0 else 3) m).
  { intros m Hm. eapply at_most_mono; [|exact Hm]. lia. }
  destruct (negb (status_code resp =? 200)); [by apply Hzero, at_most_pure|].
  destruct (bool_decide _); [by apply Hzero, at_most_pure|].
  apply (at_most_bind 0 _ (lift _)); [by apply at_most_pure|]. intros data.
  by apply at_most_handle_data.
Qed.

Lemma at_most_call fuel :
  (∀ a, restricted a = false → sends_at_most 1 (call serve fuel a)) ∧
  (∀ a, retried a = true → sends_at_most 2 (call serve fuel a)) ∧
  (∀ a, sends_at_most 5 (call serve fuel a)).
Proof.
  induction fuel as [|n (IH1 & IH2 & _)].
  - repeat split; intros; (eapply at_most_mono; [|by apply at_most_pure]); lia.
  - repeat split.
    + intros a Hr. pose proof (at_most_call_body (call serve n) a IH1 IH2) as H.
      rewrite Hr in H. exact H.
    + intros a Ht. pose proof (at_most_call_body (call serve n) a IH1 IH2) as H.
      rewrite Ht, orb_true_r in H. eapply at_most_mono; [|exact H].
      destruct (restricted a); simpl; lia.
    + intros a. pose proof (at_most_call_body (call serve n) a IH1 IH2) as H.
      eapply at_most_mono; [|exact H].
      destruct (restricted a), (retried a); simpl; lia.
Qed.

(** One [call] sends at most five requests (login, first attempt, login,
    login of the second attempt, second attempt), at most two when it is a
    second attempt, and at most one when it requires no session; earlier
    requests stay in the log. *)
Theorem call_sends_at_most_five (fuel : nat) (a : call_args) (w : world) :
  ∃ l, log (call serve fuel a w).1 = (log w ++ l)%list ∧
       (length l ≤ 5)%nat ∧
       (retried a = true → (length l ≤ 2)%nat) ∧
       (restricted a = false → (length l ≤ 1)%nat).
Proof.
  destruct (at_most_call fuel) as (H1 & H2 & H5).
  destruct (H5 a w) as (l & Hl & Hlen). exists l. repeat split; try done.
  - intros Ht. destruct (H2 a Ht w) as (l2 & Hl2 & Hlen2).
    rewrite Hl in Hl2. by apply app_inv_head in Hl2 as ->.
  - intros Hr. destruct (H1 a Hr w) as (l1 & Hl1 & Hlen1).
    rewrite Hl in Hl1. by apply app_inv_head in Hl1 as ->.
Qed.

End TransportFurther.

Section TransportAnswers.

Import Http.

Variable server_state : Type.
Variable serve : server_state → request → server_state * net_result.

Abbreviation world := (Http.world server_state).
Abbreviation M := (Http.M server_state).

(** ** One answer *)

(** [call] up to the answer, when no login comes first. *)
Lemma call_answered fuel a (w : world) s' resp :
  restricted a && is_None (sid (self w)) = false →
  serve (server w) (build_request (self w) a) = (s', NetResponse resp) →
  call serve (S fuel) a w =
  handle_response (call serve fuel) a (build_request (self w) a) resp
    (sent w a s').
Proof.
  intros Hlogin Hserve. simpl. unfold call_body.
  rewrite bind_get_self, Hlogin, bind_ret, bind_get_self.
  unfold bind at 1, requests_get. by rewrite Hserve.
Qed.

(** An answer with a status other than 200 ends the call with the
    transport's exception, which names the status; whatever the body says,
    nothing more is sent and the session id stays. *)
Theorem wrong_status_fails fuel a (w : world) s' resp :
  restricted a && is_None (sid (self w)) = false →
  serve (server w) (build_request (self w) a) = (s', NetResponse resp) →
  status_code resp ≠ 200 →
  call serve (S fuel) a w =
  (sent w a s',
   Raise (SynologyHttpException
     ("The server answered a wrong status code (code=" +:+
      pretty (status_code resp) +:+ ")"))).
Proof.
  intros Hlogin Hserve Hstatus. rewrite (call_answered _ _ _ _ _ Hlogin Hserve).
  unfold handle_response. by rewrite (proj2 (Z.eqb_neq _ _) Hstatus).
Qed.

(** An answer of type [application/zip] with status 200 is returned as it
    is: its body is not decoded. *)
Theorem archive_is_returned_raw fuel a (w : world) s' resp :
  restricted a && is_None (sid (self w)) = false →
  serve (server w) (build_request (self w) a) = (s', NetResponse resp) →
  status_code resp = 200 →
  content_type resp = Some "application/zip" →
  call serve (S fuel) a w = (sent w a s', Ok (RResponse resp)).
Proof.
  intros Hlogin Hserve Hstatus Hzip. rewrite (call_answered _ _ _ _ _ Hlogin Hserve).
  unfold handle_response. rewrite Hstatus, Z.eqb_refl, Hzip.
  by rewrite bool_decide_eq_true_2.
Qed.

Lemma call_success_value fuel a (w : world) s' resp kvs sv :
  restricted a && is_None (sid (self w)) = false →
  serve (server w) (build_request (self w) a) = (s', NetResponse resp) →
  status_code resp = 200 →
  content_type resp ≠ Some "application/zip" →
  json_body resp = Some (VDict kvs) →
  assoc "success" kvs = Some sv →
  truthy sv = true →
  call serve (S fuel) a w =
  (sent w a s', Ok (RValue (default sv (assoc "data" kvs)))).
Proof.
  intros Hlogin Hserve Hstatus Hzip Hbody Hs Htrue. simpl call.
  rewrite (call_body_decoded _ _ _ _ _ _ _ _ Hlogin Hserve Hstatus Hzip Hbody).
  unfold handle_data. cbv zeta.
  rewrite malformed_dict. unfold Envelope.rejected. rewrite Hs.
  rewrite bool_decide_eq_false_2 by done.
  rewrite bind_lift_ok. cbv [andb].
  rewrite (py_getitem_dict _ _ _ Hs), bind_lift_ok, Htrue.
  change (negb true) with false. cbv iota.
  cbn [py_contains]. rewrite !bind_lift_ok, Hs.
  rewrite bool_decide_eq_true_2 by by eexists.
  destruct (assoc "data" kvs) as [d|] eqn:Hd.
  - rewrite bool_decide_eq_true_2 by by eexists.
    cbn [negb andb]. by rewrite (py_getitem_dict _ _ _ Hd), bind_lift_ok.
  - rewrite bool_decide_eq_false_2 by (intros [? [=]]).
    cbn [negb andb]. by rewrite bind_lift_ok.
Qed.

(** A JSON object whose [success] is true gives the value under [data],
    and the value of [success] itself when there is no [data]; nothing more
    is sent. *)
Theorem success_returns_data fuel a (w : world) s' resp kvs sv :
  restricted a && is_None (sid (self w)) = false →
  serve (server w) (build_request (self w) a) = (s', NetResponse resp) →
  status_code resp = 200 →
  content_type resp ≠ Some "application/zip" →
  json_body resp = Some (VDict kvs) →
  assoc "success" kvs = Some sv →
  truthy sv = true →
  call serve (S fuel) a w =
  (sent w a s', Ok (RValue (default sv (assoc "data" kvs)))).
Proof. apply call_success_value. Qed.

(** A failure answer whose code is not 106 or 107 is never followed by a
    login or a second attempt: the call ends on that answer.  (The failure
    it ends with is the [TypeError] of [SynologyError.__init__].) *)
Theorem other_codes_are_not_retried
    fuel a (w : world) s' resp kvs sv error code n :
  restricted a && is_None (sid (self w)) = false →
  serve (server w) (build_request (self w) a) = (s', NetResponse resp) →
  status_code resp = 200 →
  content_type resp ≠ Some "application/zip" →
  json_body resp = Some (VDict kvs) →
  assoc "success" kvs = Some sv →
  truthy sv = false →
  assoc "error" kvs = Some error →
  py_getitem error "code" = Ok code →
  py_int code = Ok n →
  n ≠ 106 → n ≠ 107 →
  call serve (S fuel) a w =
  (sent w a s', Raise (TypeError "super() argument 1 must be type, not str")).
Proof.
  intros Hlogin Hserve Hstatus Hzip Hbody Hs Hfalse He Hc Hn H106 H107.
  simpl call.
  rewrite (call_body_decoded _ _ _ _ _ _ _ _ Hlogin Hserve Hstatus Hzip Hbody).
  unfold handle_data. cbv zeta.
  rewrite malformed_dict. unfold Envelope.rejected. rewrite Hs.
  rewrite bool_decide_eq_false_2 by done.
  rewrite bind_lift_ok. cbv [andb].
  rewrite (py_getitem_dict _ _ _ Hs), bind_lift_ok, Hfalse.
  change (negb false) with true. cbv iota.
  rewrite (py_getitem_dict _ _ _ He), bind_lift_ok, Hc, bind_lift_ok, Hn,
    bind_lift_ok.
  rewrite (proj2 (Z.eqb_neq _ _) H106), (proj2 (Z.eqb_neq _ _) H107).
  destruct (100 <=? n); [destruct (n <? 200)|]; done.
Qed.

(** ** The second attempt *)

(** The request of the second attempt, built once the new session id [v]
    is stored, has the URL, the query parameters, the certificate check
    and the timeout of the first one; its cookie is the new session id; it
    is never streamed; and its arguments say that it is a second attempt of
    a call that requires a session. *)
Theorem retried_request_matches_first (h : http) (v : value) (a : call_args) :
  let rq := build_request h a in
  let a' := retry_args rq a in
  let rq' := build_request (with_sid h v) a' in
  rq_url rq' = rq_url rq ∧
  rq_params rq' = rq_params rq ∧
  rq_verify rq' = rq_verify rq ∧
  rq_timeout rq' = rq_timeout rq ∧
  rq_cookies rq' = (if is_None v then ∅ else <["id" := v]> ∅) ∧
  rq_stream rq' = false ∧
  retried a' = true ∧ restricted a' = true.
Proof.
  cbv zeta. repeat split.
  simpl. apply map_eq. intros k. rewrite !lookup_insert.
  repeat case_decide; done.
Qed.

End TransportAnswers.

Lemma wrong_status_fails_witness :
  let w := Traffic.start [Http.NetResponse (Http.Response 503 None None)] in
  Http.call Traffic.scripted 1 Traffic.get_setting w =
  (Http.sent w Traffic.get_setting [],
   Raise (SynologyHttpException
     ("The server answered a wrong status code (code=" +:+ pretty 503 +:+ ")"))).
Proof.
  intros w.
  refine (wrong_status_fails (list Http.net_result) Traffic.scripted 0
            Traffic.get_setting w [] (Http.Response 503 None None)
            eq_refl eq_refl _).
  discriminate.
Defined.

Lemma archive_is_returned_raw_witness :
  let resp := Http.Response 200 (Some "application/zip") None in
  let w := Traffic.start [Http.NetResponse resp] in
  Http.call Traffic.scripted 1 Traffic.get_setting w =
  (Http.sent w Traffic.get_setting [], Ok (Http.RResponse resp)).
Proof.
  intros resp w.
  exact (archive_is_returned_raw (list Http.net_result) Traffic.scripted 0
           Traffic.get_setting w [] resp eq_refl eq_refl eq_refl eq_refl).
Defined.

Lemma success_returns_data_witness :
  let w := Traffic.start [Traffic.json200 (VDict [("success", VBool true)])] in
  Http.call Traffic.scripted 1 Traffic.get_setting w =
  (Http.sent w Traffic.get_setting [], Ok (Http.RValue (VBool true))).
Proof.
  intros w.
  refine (success_returns_data (list Http.net_result) Traffic.scripted 0
            Traffic.get_setting w [] _ [("success", VBool true)] (VBool true)
            eq_refl eq_refl eq_refl _ eq_refl eq_refl eq_refl).
  discriminate.
Defined.

Lemma other_codes_are_not_retried_witness :
  let w := Traffic.start [Traffic.failure 105] in
  Http.call Traffic.scripted 1 Traffic.get_setting w =
  (Http.sent w Traffic.get_setting [],
   Raise (TypeError "super() argument 1 must be type, not str")).
Proof.
  intros w.
  refine (other_codes_are_not_retried (list Http.net_result) Traffic.scripted 0
            Traffic.get_setting w [] _ _ (VBool false) _ (VInt 105) 105
            eq_refl eq_refl eq_refl _ eq_refl eq_refl eq_refl eq_refl eq_refl
            eq_refl _ _); discriminate.
Defined.

Section TransportLogin.

Import Http.

Variable server_state : Type.
Variable serve : server_state → request → server_state * net_result.

Abbreviation world := (Http.world server_state).
Abbreviation M := (Http.M server_state).

(** ** Logging in *)

Lemma login_unfold (f : call_args → M result) (w : world) :
  _login f w =
  bind (f (login_args (self w)))
    (λ response, bind (lift (result_getitem response "sid")) set_sid) w.
Proof. done. Qed.

(** A login answered with [{"success": true, "data": {"sid": s}}] stores
    [s] as the session id, after exactly one request, and changes nothing
    else. *)
Theorem login_stores_session fuel (w : world) s' resp kvs sv d new_sid :
  serve (server w) (build_request (self w) (login_args (self w)))
    = (s', NetResponse resp) →
  status_code resp = 200 →
  content_type resp ≠ Some "application/zip" →
  json_body resp = Some (VDict kvs) →
  assoc "success" kvs = Some sv →
  truthy sv = true →
  assoc "data" kvs = Some d →
  py_getitem d "sid" = Ok new_sid →
  login serve (S fuel) w =
  (World (with_sid (self w) new_sid) s'
     (log w ++ [build_request (self w) (login_args (self w))]), Ok ()).
Proof.
  intros Hserve Hstatus Hzip Hbody Hs Htrue Hd Hsid.
  unfold login. rewrite login_unfold. unfold bind at 1.
  rewrite (call_success_value _ serve fuel (login_args (self w)) w s' resp kvs sv
             eq_refl Hserve Hstatus Hzip Hbody Hs Htrue).
  rewrite Hd. cbn [default from_option id result_getitem].
  by rewrite Hsid, bind_lift_ok.
Qed.

Abbreviation keeps m := (∀ w : world, self (m w).1 = self w).

Lemma keeps_bind {A B} (m : M A) (k : A → M B) :
  keeps m → (∀ x, keeps (k x)) → keeps (bind m k).
Proof.
  intros Hm Hk w. unfold bind. specialize (Hm w).
  destruct (m w) as [w' [x|e]]; [|exact Hm].
  rewrite <- Hm. apply Hk.
Qed.

Lemma keeps_requests_get rq : keeps (requests_get serve rq).
Proof.
  intros w. unfold requests_get. by destruct (serve (server w) rq) as [s' [|r]].
Qed.

Lemma keeps_handle_data (f : call_args → M result) a rq data :
  negb (restricted a) || retried a = true →
  keeps (handle_data f a rq data).
Proof.
  intros Hlast. unfold handle_data. cbv zeta.
  apply keeps_bind; [done|]. intros [|]; [done|].
  apply keeps_bind; [done|]. intros success.
  destruct (negb (truthy success)).
  - apply keeps_bind; [done|]. intros error.
    apply keeps_bind; [done|]. intros code.
    apply keeps_bind; [done|]. intros n.
    destruct ((100 <=? n) && (n <? 200)); [|done].
    destruct ((n =? 106) || (n =? 107)); [|done].
    by rewrite Hlast.
  - apply keeps_bind; [done|]. intros hs.
    apply keeps_bind; [done|]. intros hd.
    destruct (hs && negb hd); (apply keeps_bind; [done|]; done).
Qed.

Lemma keeps_call_unrestricted n a :
  restricted a = false → keeps (call serve n a).
Proof.
  intros Hr. destruct n as [|n]; [done|]. simpl. unfold call_body.
  apply keeps_bind; [done|]. intros h. rewrite Hr. cbn [andb].
  apply keeps_bind; [done|]. intros _.
  apply keeps_bind; [done|]. intros h'.
  apply keeps_bind; [apply keeps_requests_get|]. intros resp.
  unfold handle_response.
  destruct (negb (status_code resp =? 200)); [done|].
  destruct (bool_decide _); [done|].
  apply keeps_bind; [done|]. intros data.
  apply keeps_handle_data. by rewrite Hr.
Qed.

(** A login that fails leaves the object as it was, session id included;
    a login that succeeds changes the session id and nothing else. *)
Theorem login_changes_only_the_session (fuel : nat) (w : world) :
  match login serve fuel w with
  | (w', Ok _) => ∃ v, self w' = with_sid (self w) v
  | (w', Raise _) => self w' = self w
  end.
Proof.
  unfold login. rewrite login_unfold. unfold bind at 1.
  pose proof (keeps_call_unrestricted fuel (login_args (self w)) eq_refl w) as Hk.
  destruct (call serve fuel (login_args (self w)) w) as [w1 [r|e]];
    cbn [fst] in Hk; [|done].
  unfold bind, lift, set_sid.
  destruct (result_getitem r "sid") as [v|e]; [|done].
  exists v. simpl. by rewrite Hk.
Qed.

(** A call that requires a session and finds none logs in first: when the
    login succeeds, the call goes on as a call made with the session in
    place, and its request carries the session id as the cookie [id]; when
    the login fails, the call fails in the same way and its own request is
    not sent. *)
Theorem call_logs_in_first (fuel : nat) (a : call_args) (w : world) :
  restricted a = true →
  is_None (sid (self w)) = true →
  match login serve (S fuel) w with
  | (w1, Ok _) =>
      is_None (sid (self w1)) = false →
      call serve (S (S fuel)) a w = call serve (S (S fuel)) a w1 ∧
      rq_cookies (build_request (self w1) a) !! "id" = Some (sid (self w1))
  | (w1, Raise e) =>
      call serve (S (S fuel)) a w = (w1, Raise e)
  end.
Proof.
  intros Hr Hnone. unfold login.
  assert (Hfirst : call serve (S (S fuel)) a w =
    bind (_login (call serve (S fuel)))
      (λ _, bind get_self (λ h,
         bind (requests_get serve (build_request h a))
           (handle_response (call serve (S fuel)) a (build_request h a)))) w).
  { change (call serve (S (S fuel)) a w)
      with (call_body serve (call serve (S fuel)) a w).
    unfold call_body. by rewrite bind_get_self, Hr, Hnone. }
  rewrite Hfirst. clear Hfirst.
  destruct (_login (call serve (S fuel)) w) as [w1 [[]|e]] eqn:Hlogin;
    [|unfold bind at 1; by rewrite Hlogin].
  intros Hsid. unfold bind at 1. rewrite Hlogin. split.
  - change (call serve (S (S fuel)) a w1)
      with (call_body serve (call serve (S fuel)) a w1).
    unfold call_body. rewrite !bind_get_self, Hsid, andb_false_r.
    by rewrite bind_ret, bind_get_self.
  - simpl. rewrite Hsid. by rewrite lookup_insert_eq.
Qed.

End TransportLogin.

Lemma login_stores_session_witness :
  let h := Http.init "router" 8001 "admin" "secret" true in
  let w := Http.World h [Traffic.success (VDict [("sid", VStr "S1")])] [] in
  Http.login Traffic.scripted 1 w =
  (Http.World (Http.with_sid h (VStr "S1")) []
     [Http.build_request h (Http.login_args h)], Ok ()).
Proof.
  intros h w.
  refine (login_stores_session (list Http.net_result) Traffic.scripted 0 w []
            _ _ (VBool true) (VDict [("sid", VStr "S1")]) (VStr "S1")
            eq_refl eq_refl _ eq_refl eq_refl eq_refl eq_refl eq_refl).
  discriminate.
Defined.

Lemma call_logs_in_first_witness :
  let h := Http.init "router" 8001 "admin" "secret" true in
  let w := Http.World h [Traffic.success (VDict [("sid", VStr "S1")]);
                         Traffic.success (VInt 7)] [] in
  match Http.login Traffic.scripted 1 w with
  | (w1, Ok _) =>
      is_None (Http.sid (Http.self w1)) = false →
      Http.call Traffic.scripted 2 Traffic.get_setting w =
      Http.call Traffic.scripted 2 Traffic.get_setting w1 ∧
      Http.rq_cookies (Http.build_request (Http.self w1) Traffic.get_setting)
        !! "id" = Some (Http.sid (Http.self w1))
  | (w1, Raise e) =>
      Http.call Traffic.scripted 2 Traffic.get_setting w = (w1, Raise e)
  end.
Proof.
  intros h w.
  exact (call_logs_in_first (list Http.net_result) Traffic.scripted 0
           Traffic.get_setting w eq_refl eq_refl).
Defined.

(** * The filter of the API namespaces *)

Section Filter.

Import Api.

Lemma satisfies_matches e fs b :
  satisfies e fs = Ok b → b = matches fs e.
Proof.
  induction fs as [|[k v] fs IH]; simpl; [by intros [= <-]|].
  destruct (py_getitem e k) as [x|err]; simpl; [|done].
  destruct (py_eq x v); simpl; [exact IH | by intros [= <-]].
Qed.

Lemma satisfies_has_keys e fs :
  has_keys fs e = true → satisfies e fs = Ok (matches fs e).
Proof.
  induction fs as [|[k v] fs IH]; simpl; [done|].
  destruct (py_getitem e k) as [x|err]; simpl; [|done].
  intros H. destruct (py_eq x v); simpl; [by apply IH | done].
Qed.

Lemma select_filter xs fs l :
  select xs fs = Ok l →
  l = List.filter (matches fs) xs ∧ Forall (λ e, satisfies e fs = Ok true) l.
Proof.
  revert l. induction xs as [|e xs IH]; intros l; simpl.
  - intros [= <-]. by split.
  - destruct (satisfies e fs) as [b|err] eqn:Hs; simpl; [|done].
    destruct (select xs fs) as [l'|err]; simpl; [|done].
    intros [= <-]. destruct (IH l' eq_refl) as [-> Hall].
    rewrite <- (satisfies_matches _ _ _ Hs).
    destruct b; [|done]. split; [done|]. by constructor.
Qed.

Lemma select_fixed l fs :
  Forall (λ e, satisfies e fs = Ok true) l → select l fs = Ok l.
Proof.
  induction 1 as [|e l He _ IH]; simpl; [done|]. by rewrite He, IH.
Qed.

Lemma select_total xs fs :
  forallb (has_keys fs) xs = true →
  select xs fs = Ok (List.filter (matches fs) xs).
Proof.
  induction xs as [|e xs IH]; simpl; [done|].
  intros [He Hxs]%andb_prop. rewrite (satisfies_has_keys _ _ He), IH by done.
  simpl. by destruct (matches fs e).
Qed.

(** With a non-empty dict of constraints, whatever [_filter] returns for a
    list is the elements that carry every constrained key with an equal
    value, in their order, and filtering that result again changes
    nothing; it does return when every element can be asked for every
    key. *)
Theorem filter_selects_matching
    (xs : list value) (c : string * value) (cs : list (string * value)) :
  (∀ r, _filter (VList xs) (VDict (c :: cs)) = Ok r →
        r = VList (List.filter (matches (c :: cs)) xs) ∧
        _filter r (VDict (c :: cs)) = Ok r) ∧
  (forallb (has_keys (c :: cs)) xs = true →
   _filter (VList xs) (VDict (c :: cs)) =
   Ok (VList (List.filter (matches (c :: cs)) xs))).
Proof.
  split.
  - intros r. unfold _filter. cbn [py_iter mbind pyres_bind].
    destruct (select xs (c :: cs)) as [l|err] eqn:Hsel; [|done].
    intros [= <-]. destruct (select_filter _ _ _ Hsel) as [Hl Hall].
    split; [by rewrite Hl|].
    cbn [py_iter mbind pyres_bind]. by rewrite (select_fixed _ _ Hall).
  - intros Hkeys. unfold _filter. cbn [py_iter mbind pyres_bind].
    by rewrite (select_total _ _ Hkeys).
Qed.

End Filter.

Lemma filter_selects_matching_witness :
  Api._filter (VList Sample.devices)
    (VDict [("band", VStr "5G"); ("is_online", VBool true)]) =
  Ok (VList (List.filter
               (Api.matches [("band", VStr "5G"); ("is_online", VBool true)])
               Sample.devices)).
Proof.
  exact (proj2 (filter_selects_matching Sample.devices ("band", VStr "5G")
                  [("is_online", VBool true)]) eq_refl).
Defined.

(** * The operations built on the transport *)

Section ClientProperties.

Import Http Client.

Variable server_state : Type.
Variable serve : server_state → request → server_state * net_result.
Variable json_dumps : value → string.

Abbreviation world := (Http.world server_state).

(** [disconnect_wifi_device] does not report the [success] flag of the
    answer: it asks what [call] returned, the [data] payload, for a key
    [success], and answers false when the payload has none; when the
    answer has no [data], [call] returns the flag itself, a bool, and asking
    it for a key raises [AttributeError]. *)
Theorem disconnect_reads_the_payload
    fuel mac (w : world) s' resp kvs sv :
  is_None (sid (self w)) = false →
  serve (server w) (build_request (self w) (disconnect_args mac))
    = (s', NetResponse resp) →
  status_code resp = 200 →
  content_type resp ≠ Some "application/zip" →
  json_body resp = Some (VDict kvs) →
  assoc "success" kvs = Some sv →
  truthy sv = true →
  let run := disconnect_wifi_device serve (S fuel) mac w in
  run = (sent w (disconnect_args mac) s',
         py_get (default sv (assoc "data" kvs)) "success" (VBool false)) ∧
  (∀ d, assoc "data" kvs = Some (VDict d) → assoc "success" d = None →
        run.2 = Ok (VBool false)) ∧
  (assoc "data" kvs = None → sv = VBool true → run.2 = Raise AttributeError).
Proof.
  intros Hsid Hserve Hstatus Hzip Hbody Hs Htrue. cbv zeta.
  assert (Hrun : disconnect_wifi_device serve (S fuel) mac w =
    (sent w (disconnect_args mac) s',
     py_get (default sv (assoc "data" kvs)) "success" (VBool false))).
  { unfold disconnect_wifi_device, bind.
    by rewrite (call_success_value _ serve fuel (disconnect_args mac) w s' resp
                  kvs sv ltac:(by rewrite Hsid) Hserve Hstatus Hzip Hbody Hs Htrue). }
  rewrite Hrun. split; [done|]. split.
  - intros d Hd Hnone. rewrite Hd. simpl. by rewrite Hnone.
  - intros Hd ->. by rewrite Hd.
Qed.

(** ** Fetch, change, write back *)

Lemma first_match_profiles_ok pid ps i :
  forallb is_dict ps = true →
  ∃ r, first_match (profile_has_id pid) ps i = Ok r.
Proof.
  revert i. induction ps as [|p ps IH]; intros i; simpl; [by eexists|].
  intros [Hd Hds]%andb_prop. destruct p as [| | | | |kvs]; try done.
  unfold profile_has_id at 1. simpl.
  destruct (py_eq_int _ pid); [by eexists | by apply IH].
Qed.

Lemma first_match_radios_ok rt rs j :
  forallb is_dict rs = true →
  ∃ r, first_match (radio_has_type rt) rs j = Ok r.
Proof.
  revert j. induction rs as [|x rs IH]; intros j; simpl; [by eexists|].
  intros [Hd Hds]%andb_prop. destruct x as [| | | | |kvs]; try done.
  unfold radio_has_type at 1. simpl.
  destruct (py_eq_str _ rt); [by eexists | by apply IH].
Qed.

Lemma wf_profile_is_dict p : wf_profile p = true → is_dict p = true.
Proof. by destruct p. Qed.

Lemma locate_radio_wf c pid rt :
  wf_config c = true → ∃ r, locate_radio c pid rt = Ok r.
Proof.
  unfold wf_config. destruct (profile_list c) as [ps|] eqn:Hpl; [|done].
  intros Hwf. destruct c as [| | | | |kvs]; try done.
  assert (Hdicts : forallb is_dict ps = true).
  { apply forallb_forall. intros p Hp. apply wf_profile_is_dict.
    by apply (proj1 (forallb_forall _ _) Hwf). }
  unfold locate_radio.
  destruct (locate_profile (VDict kvs) pid) as [[[i p]|]|e] eqn:Hl.
  - destruct (locate_profile_Some _ _ _ _ Hl)
      as (kvs0 & ps0 & pkvs & Hk & Hps & -> & Hi & _ & _ & Htr).
    injection Hk as <-. simpl in Hpl. rewrite Hps in Hpl. injection Hpl as ->.
    assert (Hp : wf_profile (VDict pkvs) = true).
    { apply (proj1 (forallb_forall _ _) Hwf), list_elem_of_In.
      by eapply list_elem_of_lookup_2. }
    cbn [mbind pyres_bind]. rewrite Htr. cbn [negb].
    unfold wf_profile, radio_list in Hp. unfold py_get.
    destruct (assoc "radio_list" pkvs) as [[| | | |rs|]|]; try done.
    + cbn [mbind pyres_bind py_iter].
      destruct (first_match_radios_ok rt rs 0 Hp) as [r ->]. by eexists.
    + by eexists.
  - by eexists.
  - exfalso. unfold locate_profile, get_profiles in Hl. simpl in Hl, Hpl.
    destruct (assoc "profiles" kvs) as [[| | | |l|]|]; simplify_eq; simpl in Hl.
    destruct (first_match_profiles_ok pid ps 0 Hdicts) as [r Hr]. congruence.
Qed.

(** Turning a radio on or off from the switch, with a session in place and
    a configuration tree as the answer to the fetch: the profiles written
    back are those of the configuration after [enable_radio], sent as the
    parameter [profiles] of the request that follows the fetch.  The write
    is made even when the radio does not exist; the profiles are then sent
    back as they were fetched. *)
Theorem switch_writes_back_the_changed_profiles
    fuel pid rt enable (w : world) s1 resp kvs sv c ps :
  is_None (sid (self w)) = false →
  serve (server w) (build_request (self w) get_args) = (s1, NetResponse resp) →
  status_code resp = 200 →
  content_type resp ≠ Some "application/zip" →
  json_body resp = Some (VDict kvs) →
  assoc "success" kvs = Some sv →
  truthy sv = true →
  assoc "data" kvs = Some c →
  wf_config c = true →
  key c "profiles" = Some (VList ps) →
  let c' := (enable_radio c pid rt enable).1 in
  let w1 := sent w get_args s1 in
  ∃ ps',
    key c' "profiles" = Some (VList ps') ∧
    switch_radio serve json_dumps (S fuel) pid rt enable w =
      call serve (S fuel) (ApiWifi.set_args json_dumps (VList ps')) w1 ∧
    (∃ l, log (switch_radio serve json_dumps (S fuel) pid rt enable w).1 =
          (log w ++ build_request (self w) get_args ::
             build_request (self w) (ApiWifi.set_args json_dumps (VList ps')) :: l)%list) ∧
    rq_params (build_request (self w) (ApiWifi.set_args json_dumps (VList ps')))
      !! "profiles" = Some (VStr (json_dumps (VList ps'))) ∧
    (get_radio_by_type c pid rt = Ok None → ps' = ps).
Proof.
  intros Hsid Hserve Hstatus Hzip Hbody Hs Htrue Hd Hwf Hps. cbv zeta.
  assert (Hget : get_wifi_network_setting serve (S fuel) w =
                 (sent w get_args s1, Ok (RValue c))).
  { unfold get_wifi_network_setting.
    rewrite (call_success_value _ serve fuel get_args w s1 resp kvs sv
               ltac:(by rewrite Hsid) Hserve Hstatus Hzip Hbody Hs Htrue).
    by rewrite Hd. }
  destruct (locate_radio_wf c pid rt Hwf) as [found Hfound].
  assert (Hchanged : ∃ ps' b,
    enable_radio c pid rt enable = (WiFiConfigManager.get_config
      (enable_radio c pid rt enable).1, Ok b) ∧
    key (enable_radio c pid rt enable).1 "profiles" = Some (VList ps') ∧
    (get_radio_by_type c pid rt = Ok None → ps' = ps)).
  { destruct found as [[[i j] r]|].
    - destruct (locate_radio_Some _ _ _ _ _ _ Hfound)
        as (ckvs & ps0 & pkvs & rs & rkvs & -> & Hps0 & Hfp & Hi & Hrs & Hfr & Hj & -> & Htr).
      rewrite (enable_radio_found _ _ _ _ _ _ _ _ _ enable Hps0 Hi Hrs Hfound Htr).
      eexists _, true. split; [done|]. split.
      + cbn [fst key]. apply assoc_dict_set_eq.
      + unfold get_radio_by_type. by rewrite Hfound.
    - exists ps, false. unfold enable_radio. rewrite Hfound. by repeat split. }
  destruct Hchanged as (ps' & b & Hen & Hkey & Hsame).
  exists ps'. split; [done|].
  assert (Hrun : switch_radio serve json_dumps (S fuel) pid rt enable w =
    call serve (S fuel) (ApiWifi.set_args json_dumps (VList ps'))
      (sent w get_args s1)).
  { unfold switch_radio, bind at 1. rewrite Hget, Hen.
    unfold ApiWifi.set_network_setting, WiFiConfigManager.get_config.
    destruct (enable_radio c pid rt enable).1 as [| | | | |ckvs']; try done.
    simpl in Hkey. unfold ApiWifi.profiles_data. rewrite Hkey.
    by rewrite bind_lift_ok. }
  split; [done|]. split; [|split; [|done]].
  - rewrite Hrun.
    destruct (call_logs_request _ serve fuel
                (ApiWifi.set_args json_dumps (VList ps')) (sent w get_args s1))
      as [l Hl]; [simpl; by rewrite Hsid|].
    exists l. rewrite Hl. simpl. by rewrite <- app_assoc.
  - simpl. rewrite !lookup_insert_ne by done. by rewrite lookup_insert_eq.
Qed.

End ClientProperties.

Lemma disconnect_reads_the_payload_witness :
  let w := Traffic.start [Traffic.json200 (VDict [("success", VBool true)])] in
  (Client.disconnect_wifi_device Traffic.scripted 1 (VStr "aa:01") w).2 =
  Raise AttributeError.
Proof.
  intros w.
  assert (Hzip : Some "application/json" ≠ Some "application/zip") by discriminate.
  destruct (disconnect_reads_the_payload (list Http.net_result) Traffic.scripted
              0 (VStr "aa:01") w [] _ [("success", VBool true)] (VBool true)
              eq_refl eq_refl eq_refl Hzip eq_refl eq_refl eq_refl)
    as (_ & _ & H).
  exact (H eq_refl eq_refl).
Defined.

Lemma switch_writes_back_the_changed_profiles_witness :
  let w := Traffic.start [Traffic.success Sample.config;
                          Traffic.success (VBool true)] in
  ∃ ps',
    Model.key (enable_radio Sample.config 1 "2.4G" true).1 "profiles"
      = Some (VList ps') ∧
    Client.switch_radio Traffic.scripted Sample.json_dumps 1 1 "2.4G" true w =
    Http.call Traffic.scripted 1
      (ApiWifi.set_args Sample.json_dumps (VList ps'))
      (Http.sent w Client.get_args [Traffic.success (VBool true)]).
Proof.
  intros w.
  assert (Hzip : Some "application/json" ≠ Some "application/zip") by discriminate.
  destruct (switch_writes_back_the_changed_profiles (list Http.net_result)
              Traffic.scripted Sample.json_dumps 0 1 "2.4G" true w
              [Traffic.success (VBool true)] _
              [("success", VBool true); ("data", Sample.config)] (VBool true)
              Sample.config [Sample.profile_1; Sample.profile_2]
              eq_refl eq_refl eq_refl Hzip eq_refl eq_refl eq_refl eq_refl
              eq_refl eq_refl)
    as (ps' & H1 & H2 & _).
  exists ps'. split; [exact H1 | exact H2].
Defined.
